(** * Database connection lifecycle of the Joplin server ([packages/server/src/db.ts])

    A shallow embedding of [db.ts]: the configuration resolver
    ([makeKnexConfig]), the error classifier ([isNoSuchTableError]), the
    readiness probe ([latestMigration], [connectionCheck]), the retry loop
    ([waitForConnection]) and the schema reset ([dropTables],
    [truncateTables]).

    The query builder (knex) and the two database engines behind it are
    outside the module.  They appear here as an interface, [Knex], whose
    operations act on a world state; the module's own code is written over
    that interface, and a concrete world ([Server], at the end of the
    definitions) stands for an SQLite file or a PostgreSQL server. *)

From Stdlib Require Import ZArith Lia Bool List String Ascii.
From stdpp Require Import base option list strings gmap pretty.

Local Open Scope string_scope.
Local Open Scope list_scope.

(** ** JavaScript values

    [catch (error)] binds a value of type [any], and [isNoSuchTableError]
    takes one.  The values modelled are the data values: [undefined], [null],
    booleans, numbers, strings, arrays and plain objects with data
    properties.  Of the numbers, [JNum n] is the integer [n], meant for the
    integers a double holds exactly and prints digit by digit, those of
    magnitude at most 2^53, and [JNaN] is [NaN]; fractions, infinities and
    larger magnitudes are not modelled.  Functions, accessors and objects
    with methods of their own are not modelled. *)

Unset Elimination Schemes.
Inductive JsValue : Type :=
| JUndefined
| JNull
| JBool (b : bool)
| JNum (n : Z)
| JNaN
| JStr (s : string)
| JArr (items : list JsValue)
| JObj (props : list (string * JsValue)).
Set Elimination Schemes.

(** [if (v)], [v && ...] and [!!v]. *)
Definition truthy (v : JsValue) : bool :=
  match v with
  | JUndefined | JNull | JNaN => false
  | JBool b => b
  | JNum n => negb (n =? 0)%Z
  | JStr s => negb (String.eqb s "")
  | JArr _ | JObj _ => true
  end.

(** The result of running a piece of code: a value, or a thrown value. *)
Inductive Result (A : Type) : Type :=
| Ok (a : A)
| Throw (e : JsValue).
Arguments Ok {A} a.
Arguments Throw {A} e.

Definition typeError (msg : string) : JsValue :=
  JObj [("name", JStr "TypeError"); ("message", JStr msg)].

(** [new Error(msg)]. *)
Definition newError (msg : string) : JsValue :=
  JObj [("name", JStr "Error"); ("message", JStr msg)].

Fixpoint assoc (k : string) (props : list (string * JsValue)) : JsValue :=
  match props with
  | [] => JUndefined
  | (k', v) :: rest => if String.eqb k k' then v else assoc k rest
  end.

(** [v.k] for the property names this module reads ([code], [message]):
    a TypeError on [null] and [undefined], the own property of an object,
    [undefined] on every other value (the prototypes of strings, numbers,
    booleans and arrays define neither name). *)
Definition getProp (v : JsValue) (k : string) : Result JsValue :=
  match v with
  | JUndefined => Throw (typeError ("Cannot read properties of undefined (reading '" +:+ k +:+ "')"))
  | JNull => Throw (typeError ("Cannot read properties of null (reading '" +:+ k +:+ "')"))
  | JObj props => Ok (assoc k props)
  | _ => Ok JUndefined
  end.

(** [v === s] for a string literal [s]. *)
Definition strictEqStr (v : JsValue) (s : string) : bool :=
  match v with
  | JStr s' => String.eqb s' s
  | _ => false
  end.

(** [String.prototype.includes]: [needle] occurs in [s]. *)
Fixpoint includes (s needle : string) : bool :=
  String.prefix needle s ||
  match s with
  | EmptyString => false
  | String _ s' => includes s' needle
  end.

(** [recv.includes(needle)]: the string method, the array method (element
    equality; only a string element can equal the string [needle]), and a
    TypeError for a receiver that has no such method. *)
Definition callIncludes (recv : JsValue) (needle : string) : Result bool :=
  match recv with
  | JStr s => Ok (includes s needle)
  | JArr items => Ok (existsb (fun x => strictEqStr x needle) items)
  | JUndefined => Throw (typeError "Cannot read properties of undefined (reading 'includes')")
  | JNull => Throw (typeError "Cannot read properties of null (reading 'includes')")
  | _ => Throw (typeError "error.message.includes is not a function")
  end.

(** The conversion a template literal applies to [${v}].  For [JNum n] it
    is the decimal numeral of [n], which is what JavaScript prints when
    [n] is of magnitude at most 2^53; statements about the text of a
    number carry that bound. *)
Fixpoint toStringJs (v : JsValue) : string :=
  match v with
  | JUndefined => "undefined"
  | JNull => "null"
  | JBool true => "true"
  | JBool false => "false"
  | JNum n => pretty n
  | JNaN => "NaN"
  | JStr s => s
  | JArr items =>
      let elem x := match x with JUndefined | JNull => "" | _ => toStringJs x end in
      (fix join (l : list JsValue) : string :=
         match l with
         | [] => ""
         | [x] => elem x
         | x :: l' => elem x +:+ "," +:+ join l'
         end) items
  | JObj _ => "[object Object]"
  end.

(** ** The error classifier *)

Definition noSuchTableNeedle : string := "no such table: knex_migrations".

Definition isNoSuchTableError (error : JsValue) : Result bool :=
  if truthy error then
    match getProp error "code" with
    | Throw e => Throw e
    | Ok code =>
        (* Postgres error: 42P01: undefined_table *)
        if strictEqStr code "42P01" then Ok true
        else
          (* Sqlite3 error *)
          match getProp error "message" with
          | Throw e => Throw e
          | Ok message =>
              if truthy message then
                match callIncludes message noSuchTableNeedle with
                | Throw e => Throw e
                | Ok true => Ok true
                | Ok false => Ok false
                end
              else Ok false
          end
    end
  else Ok false.

(** ** Configuration *)

(** Modelled from the spec: the declaration of [DatabaseConfig] lives in
    [utils/types], which is not part of the module; section 6 of the
    specification lists its fields, and section 3 adds an optional file
    path override, which this module reads nowhere.  [client] is the string
    the code compares with ['sqlite3']. *)
Record DatabaseConfig : Type := {
  client : string;
  name : string;
  host : option string;
  port : option Z;
  user : option string;
  password : option string;
  filePathOverride : option string;
  asyncStackTraces : option bool;
}.

(** [DbConfigConnection]; every field is optional. *)
Record DbConfigConnection : Type := {
  conn_host : option string;
  conn_port : option Z;
  conn_user : option string;
  conn_database : option string;
  conn_filename : option string;
  conn_password : option string;
}.

Record KnexDatabaseConfig : Type := {
  knex_client : string;
  connection : DbConfigConnection;
  useNullAsDefault : option bool;
  knex_asyncStackTraces : option bool;
}.

(** What the module reads from the process it runs in: [sqliteDbDir] is
    [pathUtils.dirname(__dirname)], fixed when the module is loaded. *)
Class Process : Type := { sqliteDbDir : string }.

Section Config.
Context `{Process}.

Definition sqliteFilePath (name : string) : string :=
  sqliteDbDir +:+ "/db-" +:+ name +:+ ".sqlite".

Definition makeKnexConfig (dbConfig : DatabaseConfig) : KnexDatabaseConfig :=
  let connection :=
    if String.eqb (client dbConfig) "sqlite3" then
      {| conn_host := None; conn_port := None; conn_user := None;
         conn_database := None;
         conn_filename := Some (sqliteFilePath (name dbConfig));
         conn_password := None |}
    else
      {| conn_host := host dbConfig; conn_port := port dbConfig;
         conn_user := user dbConfig;
         conn_database := Some (name dbConfig);
         conn_filename := None;
         conn_password := password dbConfig |} in
  {| knex_client := client dbConfig;
     connection := connection;
     useNullAsDefault := Some (String.eqb (client dbConfig) "sqlite3");
     knex_asyncStackTraces := asyncStackTraces dbConfig |}.

End Config.

(** ** The query builder, seen from the module *)

(** A knex instance. *)
Definition DbConnection : Type := nat.

(** The errors knex and its drivers raise are [Error] objects: a message,
    and for the PostgreSQL driver, SQLite and the network layer a string
    [code]. *)
Record DriverError : Type := {
  err_code : option string;
  err_message : string;
}.

Definition errorValue (e : DriverError) : JsValue :=
  JObj (match err_code e with
        | Some c => [("code", JStr c)]
        | None => []
        end ++ [("message", JStr (err_message e))]).

Inductive Outcome (A : Type) : Type :=
| Done (a : A)
| Failed (e : DriverError).
Arguments Done {A} a.
Arguments Failed {A} e.

(** A row of a table, with the two columns this module names in a query. *)
Record Row : Type := { row_id : Z; row_name : string }.

(** The world outside the module: the query builder with the database
    behind it, and the clock.  [knex_select db t] reads the rows of [t] in
    storage order; the clauses of the query are applied by the caller. *)
Class Knex (W : Type) : Type := {
  knex_connect : KnexDatabaseConfig -> W -> Outcome DbConnection * W;
  knex_destroy : DbConnection -> W -> Outcome unit * W;
  knex_dropTable : DbConnection -> string -> W -> Outcome unit * W;
  knex_truncate : DbConnection -> string -> W -> Outcome unit * W;
  knex_select : DbConnection -> string -> W -> Outcome (list Row) * W;
  clock_now : W -> Z;
  clock_sleep : Z -> W -> W;
}.

(** What the module asks of the world, in the order it asks. *)
Inductive Call : Type :=
| CallConnect (cfg : KnexDatabaseConfig)
| CallDestroy (db : DbConnection)
| CallDropTable (db : DbConnection) (tableName : string)
| CallTruncate (db : DbConnection) (tableName : string)
| CallSelect (db : DbConnection) (tableName : string)
| CallSleep (ms : Z)
| CallLog (level : string) (text : string) (arg : JsValue).

Record ConnectionCheckResult : Type := {
  isCreated : bool;
  check_error : JsValue;
  check_latestMigration : JsValue;
  check_connection : option DbConnection;
}.

(** [Object.keys(databaseSchema)] is all this module uses of the schema;
    the columns are kept as the source lists them. *)
Definition databaseSchema : list (string * list (string * string)) :=
  [ ("users", [("id", "string"); ("email", "string"); ("password", "string"); ("full_name", "string"); ("is_admin", "number"); ("updated_time", "string"); ("created_time", "string")]);
    ("sessions", [("id", "string"); ("user_id", "string"); ("auth_code", "string"); ("updated_time", "string"); ("created_time", "string")]);
    ("permissions", [("id", "string"); ("user_id", "string"); ("item_type", "number"); ("item_id", "string"); ("can_read", "number"); ("can_write", "number"); ("updated_time", "string"); ("created_time", "string")]);
    ("files", [("id", "string"); ("owner_id", "string"); ("name", "string"); ("content", "any"); ("mime_type", "string"); ("size", "number"); ("is_directory", "number"); ("is_root", "number"); ("parent_id", "string"); ("updated_time", "string"); ("created_time", "string"); ("source_file_id", "string"); ("content_type", "number"); ("content_id", "string")]);
    ("changes", [("counter", "number"); ("id", "string"); ("owner_id", "string"); ("item_type", "number"); ("parent_id", "string"); ("item_id", "string"); ("item_name", "string"); ("type", "number"); ("updated_time", "string"); ("created_time", "string")]);
    ("api_clients", [("id", "string"); ("name", "string"); ("secret", "string"); ("updated_time", "string"); ("created_time", "string")]);
    ("notifications", [("id", "string"); ("owner_id", "string"); ("level", "number"); ("key", "string"); ("message", "string"); ("read", "number"); ("canBeDismissed", "number"); ("updated_time", "string"); ("created_time", "string")]);
    ("shares", [("id", "string"); ("owner_id", "string"); ("file_id", "string"); ("type", "number"); ("updated_time", "string"); ("created_time", "string"); ("folder_id", "string")]);
    ("share_users", [("id", "string"); ("share_id", "string"); ("user_id", "string"); ("is_accepted", "number"); ("updated_time", "string"); ("created_time", "string")]);
    ("joplin_file_contents", [("id", "string"); ("owner_id", "string"); ("item_id", "string"); ("parent_id", "string"); ("type", "number"); ("updated_time", "string"); ("created_time", "string"); ("encryption_applied", "number"); ("content", "any")]) ].

Definition allTableNames : list string :=
  map fst databaseSchema ++ ["knex_migrations"] ++ ["knex_migrations_lock"].

(** The clauses of the probe's query, on the rows of the table. *)
Fixpoint insertById (r : Row) (sorted : list Row) : list Row :=
  match sorted with
  | [] => [r]
  | r' :: rest =>
      if (row_id r <=? row_id r')%Z then r :: sorted
      else r' :: insertById r rest
  end.

(** [.orderBy('id', 'asc')] *)
Fixpoint orderByIdAsc (rows : list Row) : list Row :=
  match rows with
  | [] => []
  | r :: rest => insertById r (orderByIdAsc rest)
  end.

(** [.select('name')] *)
Definition selectName (rows : list Row) : list JsValue :=
  map (fun r => JObj [("name", JStr (row_name r))]) rows.

(** [.first()]: the first row, or [undefined]. *)
Definition first (rows : list JsValue) : JsValue :=
  match rows with
  | [] => JUndefined
  | r :: _ => r
  end.

(** ** The module's code *)

Section Db.
Context `{Process} {W : Type} `{Knex W}.

(** The state a computation runs in: the world, and the calls made so far. *)
Record State : Type := { world : W; calls : list Call }.

(** A computation: it runs in a state and ends with a value or a throw. *)
Definition M (A : Type) : Type := State -> Result A * State.

Definition ret {A} (a : A) : M A := fun st => (Ok a, st).

Definition throw {A} (e : JsValue) : M A := fun st => (Throw e, st).

Definition bind {A B} (m : M A) (k : A -> M B) : M B :=
  fun st =>
    match m st with
    | (Ok a, st') => k a st'
    | (Throw e, st') => (Throw e, st')
    end.

(** [try { body } catch (error) { handler }] *)
Definition tryCatch {A} (body : M A) (handler : JsValue -> M A) : M A :=
  fun st =>
    match body st with
    | (Ok a, st') => (Ok a, st')
    | (Throw e, st') => handler e st'
    end.

(** A pure step that may throw. *)
Definition lift {A} (r : Result A) : M A := fun st => (r, st).

(** A call on the world: it is recorded, and a failure is thrown as the
    driver's error object. *)
Definition call {A} (c : Call) (op : W -> Outcome A * W) : M A :=
  fun st =>
    let (o, w') := op (world st) in
    (match o with
     | Done a => Ok a
     | Failed e => Throw (errorValue e)
     end,
     {| world := w'; calls := calls st ++ [c] |}).

Notation "x <- m ;; k" := (bind m (fun x => k))
  (at level 100, m at next level, right associativity).
Notation "m ;;; k" := (bind m (fun _ => k))
  (at level 100, right associativity).

Definition schema_dropTable (db : DbConnection) (tableName : string) : M unit :=
  call (CallDropTable db tableName) (knex_dropTable db tableName).

Definition truncate (db : DbConnection) (tableName : string) : M unit :=
  call (CallTruncate db tableName) (knex_truncate db tableName).

Definition selectRows (db : DbConnection) (tableName : string) : M (list Row) :=
  call (CallSelect db tableName) (knex_select db tableName).

Definition dateNow : M Z := fun st => (Ok (clock_now (world st)), st).

Definition msleep (ms : Z) : M unit :=
  fun st =>
    (Ok tt, {| world := clock_sleep ms (world st);
               calls := calls st ++ [CallSleep ms] |}).

Definition loggerInfo (text : string) (arg : JsValue) : M unit :=
  fun st => (Ok tt, {| world := world st;
                       calls := calls st ++ [CallLog "info" text arg] |}).

Definition loggerError (text : string) (arg : JsValue) : M unit :=
  fun st => (Ok tt, {| world := world st;
                       calls := calls st ++ [CallLog "error" text arg] |}).

Definition connectDb (dbConfig : DatabaseConfig) : M DbConnection :=
  let cfg := makeKnexConfig dbConfig in
  call (CallConnect cfg) (knex_connect cfg).

Definition disconnectDb (db : DbConnection) : M unit :=
  call (CallDestroy db) (knex_destroy db).

(** [for (const x of xs) body(x)]; a throw ends the loop. *)
Fixpoint forOf {A} (xs : list A) (body : A -> M unit) : M unit :=
  match xs with
  | [] => ret tt
  | x :: rest => body x ;;; forOf rest body
  end.

(** The body of the loop of [dropTables], for one table. *)
Definition dropOne (db : DbConnection) (tableName : string) : M unit :=
  tryCatch (schema_dropTable db tableName)
    (fun error =>
       noSuchTable <- lift (isNoSuchTableError error) ;;
       if noSuchTable then ret tt (* continue *)
       else throw error).

Definition dropTables (db : DbConnection) : M unit :=
  forOf allTableNames (dropOne db).

(** The body of the loop of [truncateTables], for one table. *)
Definition truncateOne (db : DbConnection) (tableName : string) : M unit :=
  tryCatch (truncate db tableName)
    (fun error =>
       noSuchTable <- lift (isNoSuchTableError error) ;;
       if noSuchTable then ret tt (* continue *)
       else throw error).

Definition truncateTables (db : DbConnection) : M unit :=
  forOf allTableNames (truncateOne db).

Definition latestMigration (db : DbConnection) : M JsValue :=
  tryCatch
    (rows <- selectRows db "knex_migrations" ;;
     ret (first (selectName (orderByIdAsc rows))))
    (fun error =>
       (* If the database has never been initialized, we return null *)
       noSuchTable <- lift (isNoSuchTableError error) ;;
       if noSuchTable then ret JNull
       else throw error).

Definition connectionCheck (db : DbConnection) : M ConnectionCheckResult :=
  tryCatch
    (result <- latestMigration db ;;
     ret {| check_latestMigration := result;
            isCreated := truthy result;
            check_error := JNull;
            check_connection := Some db |})
    (fun error =>
       ret {| check_latestMigration := JNull;
              isCreated := false;
              check_error := error;
              check_connection := None |}).

Definition timeout : Z := 30000.

(** The body of the [try] in [waitForConnection]: one attempt. *)
Definition attempt (dbConfig : DatabaseConfig) : M ConnectionCheckResult :=
  connection <- connectDb dbConfig ;;
  check <- connectionCheck connection ;;
  if truthy (check_error check) then throw (check_error check)
  else ret check.

Definition timeoutMessage (lastMessage : JsValue) : string :=
  "Timeout trying to connect to database. Last error was: " +:+ toStringJs lastMessage.

(** What follows a failed attempt, up to the deadline test: the [catch]
    block and the comparison.  [Ok tt] stands for falling through to the
    sleep. *)
Definition afterFailure (startTime : Z) (error : JsValue) : M unit :=
  message <- lift (getProp error "message") ;;
  loggerInfo "Could not connect. Will try again." message ;;;
  let lastError := error in
  now <- dateNow ;;
  if (now - startTime >? timeout)%Z then
    loggerError "Timeout trying to connect to database:" lastError ;;;
    lastMessage <- lift (getProp lastError "message") ;;
    throw (newError (timeoutMessage lastMessage))
  else ret tt.

(** [while (true) { ... }], unrolled at most [fuel] times; [None] when
    [fuel] iterations were not enough. *)
Fixpoint waitLoop (fuel : nat) (dbConfig : DatabaseConfig) (startTime : Z)
    (st : State) : option (Result ConnectionCheckResult * State) :=
  match fuel with
  | O => None
  | S fuel' =>
      match attempt dbConfig st with
      | (Ok check, st1) => Some (Ok check, st1)
      | (Throw error, st1) =>
          match afterFailure startTime error st1 with
          | (Throw e, st2) => Some (Throw e, st2)
          | (Ok _, st2) =>
              match msleep 1000 st2 with
              | (Throw e, st3) => Some (Throw e, st3)
              | (Ok _, st3) => waitLoop fuel' dbConfig startTime st3
              end
          end
      end
  end.

Definition waitForConnection (fuel : nat) (dbConfig : DatabaseConfig)
    (st : State) : option (Result ConnectionCheckResult * State) :=
  let startTime := clock_now (world st) in
  waitLoop fuel dbConfig startTime st.

End Db.

Arguments State W : clear implicits.
Arguments M W A : clear implicits.

(** ** A concrete world

    One database behind knex: an SQLite file or a PostgreSQL server.  It
    answers queries from time [upAt] on and refuses the connection before;
    a query takes [latency] milliseconds. *)

Inductive Backend : Type := Sqlite | Postgres.

Record Server : Type := {
  backend : Backend;
  tables : gmap string (list Row);
  upAt : Z;
  latency : N;
  clock : Z;
  nextConnection : DbConnection;
  openConnections : list DbConnection;
}.

Definition connectionRefused : DriverError :=
  {| err_code := Some "ECONNREFUSED";
     err_message := "connect ECONNREFUSED 127.0.0.1:5432" |}.

(** The error of a statement on a table that does not exist: PostgreSQL
    reports code 42P01 (undefined_table), SQLite the message
    [no such table: <name>].  The messages are the engines', without the
    quotation marks around the table name. *)
Definition noSuchTable (b : Backend) (tableName : string) : DriverError :=
  match b with
  | Postgres =>
      {| err_code := Some "42P01";
         err_message := "relation " +:+ tableName +:+ " does not exist" |}
  | Sqlite =>
      {| err_code := Some "SQLITE_ERROR";
         err_message := "SQLITE_ERROR: no such table: " +:+ tableName |}
  end.

Definition unknownClient (c : string) : DriverError :=
  {| err_code := None;
     err_message := "Unknown configuration option 'client' value " +:+ c |}.

Definition tick (s : Server) : Server :=
  {| backend := backend s; tables := tables s; upAt := upAt s;
     latency := latency s; clock := clock s + Z.of_N (latency s);
     nextConnection := nextConnection s;
     openConnections := openConnections s |}.

Definition withTables (t : gmap string (list Row)) (s : Server) : Server :=
  {| backend := backend s; tables := t; upAt := upAt s;
     latency := latency s; clock := clock s;
     nextConnection := nextConnection s;
     openConnections := openConnections s |}.

(** Creating a knex instance opens no socket: it costs no time and fails
    only on a client it has no driver for. *)
Definition server_connect (cfg : KnexDatabaseConfig) (s : Server)
    : Outcome DbConnection * Server :=
  if String.eqb (knex_client cfg) "sqlite3" || String.eqb (knex_client cfg) "pg" then
    (Done (nextConnection s),
     {| backend := backend s; tables := tables s; upAt := upAt s;
        latency := latency s; clock := clock s;
        nextConnection := S (nextConnection s);
        openConnections := openConnections s ++ [nextConnection s] |})
  else (Failed (unknownClient (knex_client cfg)), s).

Definition server_destroy (db : DbConnection) (s : Server)
    : Outcome unit * Server :=
  (Done tt,
   {| backend := backend s; tables := tables s; upAt := upAt s;
      latency := latency s; clock := clock s;
      nextConnection := nextConnection s;
      openConnections := filter (fun c => c ≠ db) (openConnections s) |}).

(** A statement on table [tableName]: refused while the server is down,
    an error when the table is missing, [run rows] otherwise. *)
Definition statement {A} (tableName : string)
    (run : list Row -> A * gmap string (list Row) -> A * gmap string (list Row))
    (default : A) (s : Server) : Outcome A * Server :=
  if (clock s <? upAt s)%Z then (Failed connectionRefused, tick s)
  else
    match tables s !! tableName with
    | None => (Failed (noSuchTable (backend s) tableName), tick s)
    | Some rows =>
        let (a, t) := run rows (default, tables s) in
        (Done a, tick (withTables t s))
    end.

Definition server_dropTable (db : DbConnection) (tableName : string)
    : Server -> Outcome unit * Server :=
  statement tableName (fun _ '(a, t) => (a, delete tableName t)) tt.

Definition server_truncate (db : DbConnection) (tableName : string)
    : Server -> Outcome unit * Server :=
  statement tableName (fun _ '(a, t) => (a, <[tableName := []]> t)) tt.

Definition server_select (db : DbConnection) (tableName : string)
    : Server -> Outcome (list Row) * Server :=
  statement tableName (fun rows '(_, t) => (rows, t)) [].

Definition server_sleep (ms : Z) (s : Server) : Server :=
  {| backend := backend s; tables := tables s; upAt := upAt s;
     latency := latency s; clock := clock s + ms;
     nextConnection := nextConnection s;
     openConnections := openConnections s |}.

#[export] Instance server_knex : Knex Server := {
  knex_connect := server_connect;
  knex_destroy := server_destroy;
  knex_dropTable := server_dropTable;
  knex_truncate := server_truncate;
  knex_select := server_select;
  clock_now := clock;
  clock_sleep := server_sleep;
}.

#[export] Instance server_process : Process := {| sqliteDbDir := "/home/joplin/packages/server" |}.

(** A server that has every table of the catalog, empty but for one
    migration record. *)
Definition allTables : gmap string (list Row) :=
  <["knex_migrations" := [ {| row_id := 1; row_name := "20190913171451_create.js" |} ]]>
    (list_to_map (map (fun t => (t, [])) allTableNames)).

Definition freshServer (b : Backend) : Server :=
  {| backend := b; tables := allTables; upAt := 0; latency := 5; clock := 1000;
     nextConnection := 0; openConnections := [] |}.

Definition start (s : Server) : State Server := {| world := s; calls := [] |}.

Definition sqliteConfig : DatabaseConfig :=
  {| client := "sqlite3"; name := "dev"; host := None; port := None;
     user := None; password := None; filePathOverride := None;
     asyncStackTraces := None |}.

Definition postgresConfig : DatabaseConfig :=
  {| client := "pg"; name := "joplin"; host := Some "localhost"; port := Some 5432%Z;
     user := Some "joplin"; password := Some "joplin"; filePathOverride := None;
     asyncStackTraces := Some true |}.

(** ** The vocabulary of the properties *)

(** [error.code] and [error.message] of a value whose properties can be
    read. *)
Definition codeOf (e : JsValue) : JsValue :=
  match e with JObj props => assoc "code" props | _ => JUndefined end.

Definition messageOf (e : JsValue) : JsValue :=
  match e with JObj props => assoc "message" props | _ => JUndefined end.

(** The error carries the undefined-table code of PostgreSQL, or its
    message names the missing bookkeeping table: a string that contains the
    needle or, [includes] being also the array method, an array that holds
    it. *)
Definition tableNotFoundShape (e : JsValue) : Prop :=
  codeOf e = JStr "42P01" \/
  (exists s pre post, messageOf e = JStr s /\ s = pre +:+ noSuchTableNeedle +:+ post) \/
  (exists items, messageOf e = JArr items /\ In (JStr noSuchTableNeedle) items).

(** The claim's reading of the shape: a code, or a message (a string) that
    contains the needle. *)
Definition tableNotFoundClaimed (e : JsValue) : Prop :=
  codeOf e = JStr "42P01" \/
  (exists s pre post, messageOf e = JStr s /\ s = pre +:+ noSuchTableNeedle +:+ post).

(** A message the classifier can search: absent or falsy, a string, or an
    array. *)
Definition searchable (m : JsValue) : Prop :=
  truthy m = false \/ (exists s, m = JStr s) \/ (exists items, m = JArr items).

(** Two error values with a message that is neither a string nor an array. *)
Definition busyError : JsValue :=
  JObj [("code", JStr "SQLITE_BUSY"); ("message", JNum 5)].

Definition numberedError : JsValue := JObj [("message", JNum 42)].

(** Time does not run backwards while the module waits on the world, and a
    sleep lasts at least as long as asked. *)
Class TimePasses (W : Type) `{Knex W} : Prop := {
  sleep_takes : forall ms w, (clock_now w + ms <= clock_now (clock_sleep ms w))%Z;
  connect_forward : forall cfg w,
    (clock_now w <= clock_now (snd (knex_connect cfg w)))%Z;
  select_forward : forall db t w,
    (clock_now w <= clock_now (snd (knex_select db t w)))%Z;
}.

Definition isConnect (c : Call) : bool :=
  match c with CallConnect _ => true | _ => false end.

Definition isDestroy (c : Call) : bool :=
  match c with CallDestroy _ => true | _ => false end.

Definition isSleep (c : Call) : bool :=
  match c with CallSleep _ => true | _ => false end.

Definition countCalls (p : Call -> bool) (cs : list Call) : nat :=
  length (List.filter p cs).

Section Outcome.
Context `{Process} {W : Type} `{Knex W}.

(** How a run of the loop ends. *)
Definition waitOutcome (dbConfig : DatabaseConfig) (startTime : Z)
    (r : Result ConnectionCheckResult) (st' : State W) : Prop :=
  match r with
  | Ok check =>
      check_error check = JNull /\
      exists st0, attempt dbConfig st0 = (Ok check, st')
  | Throw e =>
      exists st0 d st1,
        attempt dbConfig st0 = (Throw (errorValue d), st1) /\
        world st' = world st1 /\
        (clock_now (world st') - startTime > timeout)%Z /\
        e = newError ("Timeout trying to connect to database. Last error was: "
                        +:+ err_message d)
  end.

End Outcome.

(** ** Databases for the examples *)

(** An SQLite database in which two tables of the catalog exist. *)
Definition partialSqlite : Server :=
  {| backend := Sqlite;
     tables := <["users" := [ {| row_id := 7; row_name := "admin" |} ]]>
                 (<["sessions" := []]> ∅);
     upAt := 0; latency := 5; clock := 1000;
     nextConnection := 1; openConnections := [0%nat] |}.

(** A PostgreSQL server that comes up 30.1 seconds after the module starts
    waiting, and one that comes up after 1.5 seconds. *)
Definition lateServer : Server :=
  {| backend := Postgres; tables := allTables; upAt := 31100; latency := 5;
     clock := 1000; nextConnection := 0; openConnections := [] |}.

Definition slowStart : Server :=
  {| backend := Postgres; tables := allTables; upAt := 2500; latency := 5;
     clock := 1000; nextConnection := 0; openConnections := [] |}.

(** A server that never comes up. *)
Definition downServer : Server :=
  {| backend := Postgres; tables := allTables; upAt := 10000000; latency := 5;
     clock := 1000; nextConnection := 0; openConnections := [] |}.

(** An SQLite file with three migrations recorded, not in the order of
    their ids, and one with no table at all. *)
Definition migratedSqlite : Server :=
  {| backend := Sqlite;
     tables := <["knex_migrations" :=
                   [ {| row_id := 2; row_name := "20200728130400_shares.js" |};
                     {| row_id := 1; row_name := "20190913171451_create.js" |};
                     {| row_id := 3; row_name := "20201114161249_changes.js" |} ]]> ∅;
     upAt := 0; latency := 5; clock := 1000;
     nextConnection := 1; openConnections := [0%nat] |}.

Definition emptySqlite : Server :=
  {| backend := Sqlite; tables := ∅; upAt := 0; latency := 5; clock := 1000;
     nextConnection := 1; openConnections := [0%nat] |}.

Definition force {A} (o : option A) (default : A) : A :=
  match o with Some a => a | None => default end.

Definition slowStartRun : Result ConnectionCheckResult * State Server :=
  force (waitForConnection 5 postgresConfig (start slowStart))
    (Throw JNull, start slowStart).

(** ** Change types *)




(** ** More vocabulary: traces and engines *)

Definition isLog (level : string) (c : Call) : bool :=
  match c with CallLog l _ _ => String.eqb l level | _ => false end.

(** The calls [waitForConnection] may make for a configuration. *)
Definition waitCall `{Process} (dbConfig : DatabaseConfig) (c : Call) : Prop :=
  match c with
  | CallConnect cfg => cfg = makeKnexConfig dbConfig
  | CallSelect _ tableName => tableName = "knex_migrations"
  | CallSleep ms => ms = 1000%Z
  | CallLog _ _ _ => True
  | CallDestroy _ | CallDropTable _ _ | CallTruncate _ _ => False
  end.

(** Whether the classifier takes the engine's error for a missing table
    [tableName] as a missing-table error. *)
Definition absorbs (b : Backend) (tableName : string) : bool :=
  match isNoSuchTableError (errorValue (noSuchTable b tableName)) with
  | Ok true => true
  | _ => false
  end.

Definition isThrow {A} (r : Result A) : bool :=
  match r with Throw _ => true | Ok _ => false end.

(** The table [t] after a truncate: emptied when it is there. *)
Definition truncated (t : string) (m : gmap string (list Row))
    : gmap string (list Row) :=
  match m !! t with
  | Some _ => <[t := []]> m
  | None => m
  end.

(** The same records as in [migratedSqlite], stored in another order. *)
Definition reorderedSqlite : Server :=
  {| backend := Sqlite;
     tables := <["knex_migrations" :=
                   [ {| row_id := 3; row_name := "20201114161249_changes.js" |};
                     {| row_id := 2; row_name := "20200728130400_shares.js" |};
                     {| row_id := 1; row_name := "20190913171451_create.js" |} ]]> ∅;
     upAt := 0; latency := 5; clock := 1000;
     nextConnection := 1; openConnections := [0%nat] |}.

Definition downRun : Result ConnectionCheckResult * State Server :=
  force (waitForConnection 32 postgresConfig (start downServer))
    (Throw JNull, start downServer).

(** A PostgreSQL configuration that differs from [postgresConfig] in the
    file path override only, and an SQLite one that differs from
    [sqliteConfig] in what SQLite has no use for. *)
Definition postgresConfigWithPath : DatabaseConfig :=
  {| client := "pg"; name := "joplin"; host := Some "localhost"; port := Some 5432%Z;
     user := Some "joplin"; password := Some "joplin";
     filePathOverride := Some "/var/lib/joplin/db.sqlite";
     asyncStackTraces := Some true |}.

Definition sqliteConfigWithHost : DatabaseConfig :=
  {| client := "sqlite3"; name := "dev"; host := Some "localhost";
     port := Some 5432%Z; user := Some "joplin"; password := Some "joplin";
     filePathOverride := Some "/var/lib/joplin/db.sqlite";
     asyncStackTraces := None |}.

Section Runs.
Context `{Process} {W : Type} `{Knex W}.

(** The runs of the loop of [waitForConnection], one rule for each way an
    iteration can end: the attempt succeeds; it fails past the deadline; it
    fails within the deadline and, after the sleep, the loop goes on. *)
Inductive WaitRun (dbConfig : DatabaseConfig) (startTime : Z)
  : State W -> Result ConnectionCheckResult -> State W -> Prop :=
| run_connected st check st1 :
    attempt dbConfig st = (Ok check, st1) ->
    WaitRun dbConfig startTime st (Ok check) st1
| run_timeout st d st1 :
    attempt dbConfig st = (Throw (errorValue d), st1) ->
    (clock_now (world st1) - startTime > timeout)%Z ->
    WaitRun dbConfig startTime st
      (Throw (newError ("Timeout trying to connect to database. Last error was: "
                          +:+ err_message d)))
      {| world := world st1;
         calls := calls st1
                    ++ [CallLog "info" "Could not connect. Will try again."
                          (JStr (err_message d));
                        CallLog "error" "Timeout trying to connect to database:"
                          (errorValue d)] |}
| run_retry st d st1 r st' :
    attempt dbConfig st = (Throw (errorValue d), st1) ->
    (clock_now (world st1) - startTime <= timeout)%Z ->
    WaitRun dbConfig startTime
      {| world := clock_sleep 1000 (world st1);
         calls := calls st1
                    ++ [CallLog "info" "Could not connect. Will try again."
                          (JStr (err_message d));
                        CallSleep 1000] |} r st' ->
    WaitRun dbConfig startTime st r st'.

End Runs.

(** * Properties *)

(** ** Strings *)

Lemma prefix_app (needle post : string) : String.prefix needle (needle +:+ post) = true.
Proof.
  induction needle as [|a needle IH]; simpl.
  - now destruct post.
  - destruct (ascii_dec a a); [exact IH | congruence].
Qed.

Lemma prefix_split (needle s : string) :
  String.prefix needle s = true -> exists post, s = needle +:+ post.
Proof.
  revert s; induction needle as [|a needle IH]; intros s Hp.
  - now exists s.
  - destruct s as [|b s]; simpl in Hp; [discriminate|].
    destruct (ascii_dec a b) as [->|]; [|discriminate].
    destruct (IH _ Hp) as [post ->]. now exists post.
Qed.

(** [includes] is the substring relation. *)
Lemma includes_spec (s needle : string) :
  includes s needle = true <-> exists pre post, s = pre +:+ needle +:+ post.
Proof.
  split.
  - induction s as [|a s IH]; cbn [includes]; intros Hi.
    + rewrite orb_false_r in Hi. destruct (prefix_split _ _ Hi) as [post ->].
      now exists "", post.
    + apply orb_true_iff in Hi as [Hi|Hi].
      * destruct (prefix_split _ _ Hi) as [post ->]. now exists "", post.
      * destruct (IH Hi) as (pre & post & ->). now exists (String a pre), post.
  - intros (pre & post & ->).
    induction pre as [|a pre IH].
    + change ("" +:+ needle +:+ post) with (needle +:+ post).
      destruct (needle +:+ post) eqn:E; cbn [includes];
        rewrite <- E, prefix_app; reflexivity.
    + change (String a pre +:+ needle +:+ post)
        with (String a (pre +:+ needle +:+ post)).
      cbn [includes]. rewrite IH. apply orb_true_r.
Qed.

(** ** The classifier *)

Lemma strictEqStr_spec (v : JsValue) (s : string) :
  strictEqStr v s = true <-> v = JStr s.
Proof.
  destruct v; simpl; try (split; [discriminate | intros [=]]).
  rewrite String.eqb_eq. split; [now intros -> | now intros [= ->]].
Qed.

Lemma existsb_strictEqStr (items : list JsValue) (s : string) :
  existsb (fun x => strictEqStr x s) items = true <-> In (JStr s) items.
Proof.
  rewrite existsb_exists. split.
  - intros (x & Hin & Hx). apply strictEqStr_spec in Hx. now subst.
  - intros Hin. exists (JStr s). split; [assumption | now apply strictEqStr_spec].
Qed.

(** The classifier on an object, by the shape of its code and message. *)
Lemma isNoSuchTableError_obj (props : list (string * JsValue)) :
  isNoSuchTableError (JObj props) =
    if strictEqStr (assoc "code" props) "42P01" then Ok true
    else if truthy (assoc "message" props)
         then match callIncludes (assoc "message" props) noSuchTableNeedle with
              | Throw e => Throw e
              | Ok b => Ok b
              end
         else Ok false.
Proof.
  unfold isNoSuchTableError; simpl.
  destruct (strictEqStr _ _); [reflexivity|].
  destruct (truthy _); [|reflexivity].
  destruct (callIncludes _ _) as [[|]|]; reflexivity.
Qed.

Lemma isNoSuchTableError_not_obj (e : JsValue) :
  (forall props, e <> JObj props) -> isNoSuchTableError e = Ok false.
Proof.
  intros Hno. destruct e; try reflexivity.
  - unfold isNoSuchTableError; simpl. now destruct b.
  - unfold isNoSuchTableError; simpl. now destruct (negb _).
  - unfold isNoSuchTableError; simpl. now destruct (negb _).
  - now contradiction (Hno props).
Qed.

Lemma isNoSuchTableError_true (e : JsValue) :
  isNoSuchTableError e = Ok true <-> tableNotFoundShape e.
Proof.
  destruct e as [| |b|n| |s|items|props];
    try (rewrite isNoSuchTableError_not_obj by discriminate;
         split; [discriminate |
           intros [Hc|[(s0 & pre & post & Hm & _)|(its & Hm & _)]]; discriminate]).
  rewrite isNoSuchTableError_obj. unfold tableNotFoundShape; simpl.
  destruct (strictEqStr (assoc "code" props) "42P01") eqn:Ecode.
  - apply strictEqStr_spec in Ecode. split; [now left | reflexivity].
  - assert (Hcode : assoc "code" props <> JStr "42P01").
    { intros Hc. apply strictEqStr_spec in Hc. congruence. }
    destruct (assoc "message" props) as [| |b|n| |s|items|ps] eqn:Emsg; simpl;
      try (split; [discriminate |
           intros [Hc|[(s0 & pre & post & Hm & _)|(its & Hm & _)]];
           [contradiction | discriminate | discriminate]]).
    + destruct b; simpl;
        (split; [discriminate |
           intros [Hc|[(s0 & pre & post & Hm & _)|(its & Hm & _)]];
           [contradiction | discriminate | discriminate]]).
    + destruct (negb (n =? 0)%Z); simpl;
        (split; [discriminate |
           intros [Hc|[(s0 & pre & post & Hm & _)|(its & Hm & _)]];
           [contradiction | discriminate | discriminate]]).
    + assert (Hinc : includes s noSuchTableNeedle = true <->
                     exists pre post, s = pre +:+ noSuchTableNeedle +:+ post)
        by apply includes_spec.
      destruct (negb (String.eqb s "")) eqn:Ene.
      * split.
        -- intros Heq. right; left.
           destruct (includes s noSuchTableNeedle) eqn:Ei; [|discriminate].
           destruct (proj1 Hinc eq_refl) as (pre & post & Hs).
           now exists s, pre, post.
        -- intros [Hc|[(s0 & pre & post & [= <-] & Hs)|(its & [=] & _)]];
             [contradiction|].
           rewrite (proj2 Hinc) by (now exists pre, post). reflexivity.
      * split; [discriminate|].
        intros [Hc|[(s0 & pre & post & [= <-] & Hs)|(its & [=] & _)]];
          [contradiction|].
        apply negb_false_iff, String.eqb_eq in Ene. subst s.
        destruct pre; discriminate.
    + split.
      * intros Heq. right; right. exists items. split; [reflexivity|].
        apply existsb_strictEqStr.
        destruct (existsb _ items); [reflexivity | discriminate].
      * intros [Hc|[(s0 & pre & post & [=] & _)|(its & [= <-] & Hin)]];
          [contradiction|].
        apply existsb_strictEqStr in Hin. rewrite Hin. reflexivity.
Qed.

Lemma isNoSuchTableError_raises (e : JsValue) :
  (exists err, isNoSuchTableError e = Throw err) <->
  codeOf e <> JStr "42P01" /\ ~ searchable (messageOf e).
Proof.
  destruct e as [| |b|n| |s|items|props];
    try (rewrite isNoSuchTableError_not_obj by discriminate;
         split; [intros [err [=]] | intros [_ Hs]; exfalso; apply Hs; now left]).
  rewrite isNoSuchTableError_obj. unfold searchable; simpl.
  destruct (strictEqStr (assoc "code" props) "42P01") eqn:Ecode.
  - apply strictEqStr_spec in Ecode.
    split; [intros [err [=]] | intros [Hc _]; contradiction].
  - assert (Hcode : assoc "code" props <> JStr "42P01").
    { intros Hc. apply strictEqStr_spec in Hc. congruence. }
    destruct (assoc "message" props) as [| |b|n| |s|items|ps] eqn:Emsg; simpl;
      try (split; [intros [err [=]] | intros [_ Hs]; exfalso; apply Hs; now left]).
    + destruct b; simpl.
      * split; [|intros _; eexists; reflexivity].
        intros _. split; [assumption|].
        intros [[=]|[[s [=]]|[its [=]]]].
      * split; [intros [err [=]] | intros [_ Hs]; exfalso; apply Hs; now left].
    + destruct (n =? 0)%Z eqn:En; simpl.
      * split; [intros [err [=]] | intros [_ Hs]; exfalso; apply Hs; now left].
      * split; [|intros _; eexists; reflexivity].
        intros _. split; [assumption|].
        intros [Hf|[[s [=]]|[its [=]]]]. discriminate.
    + split.
      * destruct (negb (String.eqb s "")); intros [err [=]].
      * intros [_ Hs]. exfalso. apply Hs. right; left. now exists s.
    + split; [intros [err [=]]|].
      intros [_ Hs]. exfalso. apply Hs. right; right. now exists items.
    + split; [|intros _; eexists; reflexivity].
      intros _. split; [assumption|].
      intros [[=]|[[s [=]]|[its [=]]]].
Qed.

Lemma searchable_dec (m : JsValue) : searchable m \/ ~ searchable m.
Proof.
  unfold searchable.
  destruct m as [| |b|n| |s|items|ps]; simpl;
    try (left; left; reflexivity).
  - destruct b; [right | left; now left].
    intros [[=]|[[s [=]]|[its [=]]]].
  - destruct (n =? 0)%Z; [left; now left | right].
    intros [[=]|[[s [=]]|[its [=]]]].
  - left; right; left. now exists s.
  - left; right; right. now exists items.
  - right. intros [[=]|[[s [=]]|[its [=]]]].
Qed.

Lemma isNoSuchTableError_false (e : JsValue) :
  isNoSuchTableError e = Ok false <->
  ~ tableNotFoundShape e /\ searchable (messageOf e).
Proof.
  pose proof (isNoSuchTableError_true e) as Ht.
  pose proof (isNoSuchTableError_raises e) as Hr.
  split.
  - intros Hf. split.
    + intros Hs. apply Ht in Hs. congruence.
    + destruct (searchable_dec (messageOf e)) as [|Hns]; [assumption|].
      destruct (proj2 Hr) as [err Herr]; [|congruence].
      split; [|assumption].
      intros Hc. assert (isNoSuchTableError e = Ok true) by (apply Ht; now left).
      congruence.
  - intros [Hns Hs].
    destruct (isNoSuchTableError e) as [[|]|err] eqn:E.
    + exfalso. apply Hns, Ht. reflexivity.
    + reflexivity.
    + exfalso. destruct (proj1 Hr) as [_ Hn]; [now exists err | contradiction].
Qed.

(** The errors of the drivers are classified without a throw: by their
    code, or by a search of their message. *)
Lemma isNoSuchTableError_errorValue (d : DriverError) :
  isNoSuchTableError (errorValue d) =
    Ok (match err_code d with
        | Some c => String.eqb c "42P01"
        | None => false
        end || includes (err_message d) noSuchTableNeedle).
Proof.
  unfold errorValue. rewrite isNoSuchTableError_obj.
  destruct (err_code d) as [c|]; simpl.
  - destruct (String.eqb c "42P01"); [reflexivity|]. simpl.
    destruct (err_message d) as [|a m]; reflexivity.
  - destruct (err_message d) as [|a m]; reflexivity.
Qed.

Lemma errorValue_message (d : DriverError) :
  getProp (errorValue d) "message" = Ok (JStr (err_message d)).
Proof. unfold errorValue. now destruct (err_code d). Qed.

Section Classifier.
Context `{Process} {W : Type} `{Knex W}.

(** What each caller of the classifier does with an error it classes as
    other than a missing table: it throws the error it caught. *)
Lemma rethrow_other {A} (c : Call) (op : W -> Outcome A * W) (onMissing : M W A)
    (st : State W) (d : DriverError) (w' : W) :
  op (world st) = (Failed d, w') ->
  isNoSuchTableError (errorValue d) = Ok false ->
  tryCatch (call c op)
    (fun error =>
       bind (lift (isNoSuchTableError error))
         (fun noSuchTable => if noSuchTable then onMissing else throw error)) st
  = (Throw (errorValue d), {| world := w'; calls := calls st ++ [c] |}).
Proof.
  intros Hop Hcls. unfold tryCatch, call, bind, lift, throw.
  rewrite Hop, Hcls. reflexivity.
Qed.

Lemma latestMigration_eq (db : DbConnection) (st : State W) :
  latestMigration db st =
    let st' := {| world := snd (knex_select db "knex_migrations" (world st));
                  calls := calls st ++ [CallSelect db "knex_migrations"] |} in
    match fst (knex_select db "knex_migrations" (world st)) with
    | Done rows => (Ok (first (selectName (orderByIdAsc rows))), st')
    | Failed d =>
        if match err_code d with
           | Some c => String.eqb c "42P01"
           | None => false
           end || includes (err_message d) noSuchTableNeedle
        then (Ok JNull, st')
        else (Throw (errorValue d), st')
    end.
Proof.
  unfold latestMigration, tryCatch, bind, selectRows, call, lift, ret, throw.
  destruct (knex_select db "knex_migrations" (world st)) as [[rows|d] w']; simpl.
  - reflexivity.
  - rewrite isNoSuchTableError_errorValue. now destruct (_ || _).
Qed.

(** C3, as amended: [isNoSuchTableError] returns true exactly when the
    error's code is ['42P01'] or [error.message.includes('no such table:
    knex_migrations')] holds (a string message that contains the needle, or
    an array message that holds it); it returns false exactly for the other
    values whose message is absent, falsy, a string or an array; and a
    caller ([latestMigration], the loops of [dropTables] and
    [truncateTables]) throws on, unchanged, the driver error it classes as
    other. *)
Theorem isNoSuchTableError_classification (e : JsValue) :
  (isNoSuchTableError e = Ok true <-> tableNotFoundShape e) /\
  (isNoSuchTableError e = Ok false <->
     ~ tableNotFoundShape e /\ searchable (messageOf e)) /\
  (forall (db : DbConnection) (st : State W) (d : DriverError) (w' : W),
     e = errorValue d -> isNoSuchTableError e = Ok false ->
     (knex_select db "knex_migrations" (world st) = (Failed d, w') ->
      fst (latestMigration db st) = Throw e) /\
     (forall tableName,
        knex_dropTable db tableName (world st) = (Failed d, w') ->
        fst (dropOne db tableName st) = Throw e) /\
     (forall tableName,
        knex_truncate db tableName (world st) = (Failed d, w') ->
        fst (truncateOne db tableName st) = Throw e)).
Proof.
  split; [apply isNoSuchTableError_true|].
  split; [apply isNoSuchTableError_false|].
  intros db st d w' -> Hcls. repeat split.
  - intros Hsel. unfold latestMigration, selectRows.
    change (tryCatch _ _ st) with
      (tryCatch (bind (call (CallSelect db "knex_migrations")
                         (knex_select db "knex_migrations"))
                   (fun rows => ret (first (selectName (orderByIdAsc rows)))))
         (fun error => bind (lift (isNoSuchTableError error))
            (fun noSuchTable => if noSuchTable then ret JNull else throw error)) st).
    unfold tryCatch, bind, call, lift, throw. rewrite Hsel, Hcls. reflexivity.
  - intros tableName Hop. unfold dropOne, schema_dropTable.
    erewrite rethrow_other; eauto.
  - intros tableName Hop. unfold truncateOne, truncate.
    erewrite rethrow_other; eauto.
Qed.

End Classifier.

(** C3 as stated fails: [busyError] has neither the code nor a message
    containing the needle, and is not classified as other; the call
    throws. *)
Lemma classification_counterexample :
  ~ tableNotFoundClaimed busyError /\
  isNoSuchTableError busyError <> Ok false /\
  isNoSuchTableError busyError =
    Throw (typeError "error.message.includes is not a function").
Proof.
  split; [|split; [discriminate | reflexivity]].
  intros [[=]|(s & pre & post & [=] & _)].
Qed.

(** C10, as amended: [isNoSuchTableError] returns false, without a throw,
    for [null], for [undefined], and for every value that has not the shape
    of a missing-table error and whose message is absent, falsy, a string or
    an array; it throws exactly on a value without the code ['42P01'] whose
    message is truthy and of another type. *)
Theorem isNoSuchTableError_total_on_searchable (e : JsValue) :
  isNoSuchTableError JNull = Ok false /\
  isNoSuchTableError JUndefined = Ok false /\
  (~ tableNotFoundShape e -> searchable (messageOf e) ->
   isNoSuchTableError e = Ok false) /\
  (codeOf e <> JStr "42P01" -> messageOf e = JUndefined ->
   isNoSuchTableError e = Ok false) /\
  ((exists err, isNoSuchTableError e = Throw err) <->
   codeOf e <> JStr "42P01" /\ ~ searchable (messageOf e)).
Proof.
  split; [reflexivity|]. split; [reflexivity|].
  split; [intros; now apply isNoSuchTableError_false|].
  split; [|apply isNoSuchTableError_raises].
  intros Hcode Hmsg. apply isNoSuchTableError_false. split.
  - intros [Hc|[(s & pre & post & Hm & _)|(its & Hm & _)]]; congruence.
  - rewrite Hmsg. now left.
Qed.

(** C10 as stated fails: [numberedError] is an object without a recognised
    code and without a message containing the needle, and the classifier
    throws on it. *)
Lemma total_counterexample :
  ~ tableNotFoundClaimed numberedError /\
  isNoSuchTableError numberedError =
    Throw (typeError "error.message.includes is not a function").
Proof.
  split; [|reflexivity].
  intros [[=]|(s & pre & post & [=] & _)].
Qed.

(** ** The readiness probe *)

Lemma orderByIdAsc_first (rows : list Row) :
  rows <> [] ->
  exists found rest,
    orderByIdAsc rows = found :: rest /\
    In found rows /\
    forall r, In r rows -> (row_id found <= row_id r)%Z.
Proof.
  induction rows as [|r0 rows IH]; [congruence|]. intros _.
  destruct rows as [|r1 rows].
  - exists r0, []. simpl. repeat split; [now left|].
    intros r [<-|[]]. lia.
  - destruct IH as (h & t & Hsort & Hin & Hmin); [discriminate|].
    cbn [orderByIdAsc] in *. rewrite Hsort. cbn [insertById].
    destruct (row_id r0 <=? row_id h)%Z eqn:Ecmp.
    + exists r0, (h :: t). repeat split; [now left|].
      apply Z.leb_le in Ecmp.
      intros r [<-|Hr]; [lia|]. specialize (Hmin r Hr). lia.
    + exists h, (insertById r0 t). repeat split; [now right|].
      apply Z.leb_gt in Ecmp.
      intros r [<-|Hr]; [lia|]. now apply Hmin.
Qed.

Section Probe.
Context `{Process} {W : Type} `{Knex W}.

Lemma connectionCheck_eq (db : DbConnection) (st : State W) :
  connectionCheck db st =
    match latestMigration db st with
    | (Ok result, st') =>
        (Ok {| check_latestMigration := result;
               isCreated := truthy result;
               check_error := JNull;
               check_connection := Some db |}, st')
    | (Throw error, st') =>
        (Ok {| check_latestMigration := JNull;
               isCreated := false;
               check_error := error;
               check_connection := None |}, st')
    end.
Proof.
  unfold connectionCheck, tryCatch, bind, ret.
  now destruct (latestMigration db st) as [[result|error] st'].
Qed.

(** C2: the probe on a connection.  A failure of the query classified as a
    missing table gives [isCreated = false] and [error = null]; a query
    that succeeds gives [isCreated = true] exactly when it found a record,
    whose name is returned; any other failure of the query is the probe's
    [error]. *)
Theorem connectionCheck_probe (db : DbConnection) (st : State W) :
  (forall d w',
     knex_select db "knex_migrations" (world st) = (Failed d, w') ->
     isNoSuchTableError (errorValue d) = Ok true ->
     fst (connectionCheck db st) =
       Ok {| isCreated := false; check_error := JNull;
             check_latestMigration := JNull; check_connection := Some db |}) /\
  (forall rows w',
     knex_select db "knex_migrations" (world st) = (Done rows, w') ->
     exists check,
       fst (connectionCheck db st) = Ok check /\
       check_error check = JNull /\
       (isCreated check = true <-> rows <> []) /\
       (forall found rest, orderByIdAsc rows = found :: rest ->
          check_latestMigration check = JObj [("name", JStr (row_name found))])) /\
  (forall d w',
     knex_select db "knex_migrations" (world st) = (Failed d, w') ->
     isNoSuchTableError (errorValue d) = Ok false ->
     fst (connectionCheck db st) =
       Ok {| isCreated := false; check_error := errorValue d;
             check_latestMigration := JNull; check_connection := None |}).
Proof.
  repeat split.
  - intros d w' Hsel Hcls.
    rewrite connectionCheck_eq, latestMigration_eq, Hsel; simpl.
    rewrite isNoSuchTableError_errorValue in Hcls. injection Hcls as ->.
    reflexivity.
  - intros rows w' Hsel.
    rewrite connectionCheck_eq, latestMigration_eq, Hsel; simpl.
    eexists; split; [reflexivity|]. simpl. split; [reflexivity|]. split.
    + destruct rows as [|r rows]; [split; [discriminate | congruence]|].
      destruct (orderByIdAsc_first (r :: rows)) as (h & t & -> & _);
        [discriminate|].
      split; [discriminate | reflexivity].
    + intros found rest ->. reflexivity.
  - intros d w' Hsel Hcls.
    rewrite connectionCheck_eq, latestMigration_eq, Hsel; simpl.
    rewrite isNoSuchTableError_errorValue in Hcls. injection Hcls as ->.
    reflexivity.
Qed.

(** C7: on a bookkeeping table that has records, [latestMigration] returns
    the name of a record whose id is the smallest. *)
Theorem latestMigration_smallest_id (db : DbConnection) (st : State W)
    (rows : list Row) (w' : W) :
  knex_select db "knex_migrations" (world st) = (Done rows, w') ->
  rows <> [] ->
  exists found,
    In found rows /\
    (forall r, In r rows -> (row_id found <= row_id r)%Z) /\
    fst (latestMigration db st) = Ok (JObj [("name", JStr (row_name found))]).
Proof.
  intros Hsel Hne.
  destruct (orderByIdAsc_first rows Hne) as (found & rest & Hsort & Hin & Hmin).
  exists found. repeat split; [assumption | assumption |].
  rewrite latestMigration_eq, Hsel; simpl. rewrite Hsort. reflexivity.
Qed.

(** C8: the probe always returns a result, and in it [connection] is
    non-null exactly when [error] is null. *)
Theorem connectionCheck_connection_iff_no_error (db : DbConnection) (st : State W) :
  exists check,
    fst (connectionCheck db st) = Ok check /\
    (check_connection check <> None <-> check_error check = JNull).
Proof.
  rewrite connectionCheck_eq, latestMigration_eq.
  destruct (knex_select db "knex_migrations" (world st)) as [[rows|d] w']; simpl.
  - eexists; split; [reflexivity|]. simpl. split; [reflexivity | discriminate].
  - destruct (_ || _); simpl.
    + eexists; split; [reflexivity|]. simpl. split; [reflexivity | discriminate].
    + eexists; split; [reflexivity|]. simpl.
      split; [congruence | discriminate].
Qed.

End Probe.

(** ** The configuration resolver *)

Section Resolve.
Context `{Process}.

(** C9: [makeKnexConfig] is a function of its argument; for ['sqlite3'] the
    file name is made of the storage directory and the database name, and
    of nothing else in the configuration; for any other client, host, port,
    user, password and database name are those of the configuration. *)
Theorem makeKnexConfig_deterministic (dbConfig : DatabaseConfig) :
  (forall other, other = dbConfig ->
     makeKnexConfig other = makeKnexConfig dbConfig) /\
  (client dbConfig = "sqlite3" ->
     connection (makeKnexConfig dbConfig) =
       {| conn_host := None; conn_port := None; conn_user := None;
          conn_database := None;
          conn_filename :=
            Some (sqliteDbDir +:+ "/db-" +:+ name dbConfig +:+ ".sqlite");
          conn_password := None |} /\
     forall other,
       client other = "sqlite3" -> name other = name dbConfig ->
       connection (makeKnexConfig other) = connection (makeKnexConfig dbConfig)) /\
  (client dbConfig <> "sqlite3" ->
     connection (makeKnexConfig dbConfig) =
       {| conn_host := host dbConfig; conn_port := port dbConfig;
          conn_user := user dbConfig;
          conn_database := Some (name dbConfig);
          conn_filename := None;
          conn_password := password dbConfig |}).
Proof.
  split; [now intros other ->|]. split.
  - intros Hc. unfold makeKnexConfig; simpl. rewrite Hc; simpl.
    split; [reflexivity|].
    intros other Hco Hn. rewrite Hco; simpl. unfold sqliteFilePath.
    now rewrite Hn.
  - intros Hc. unfold makeKnexConfig; simpl.
    apply String.eqb_neq in Hc. now rewrite Hc.
Qed.

End Resolve.

(** ** The schema reset *)

Section Reset.
Context `{Process} {W : Type} `{Knex W}.

Lemma forOf_app {A} (xs ys : list A) (body : A -> M W unit) (st : State W) :
  forOf (xs ++ ys) body st =
    match forOf xs body st with
    | (Ok _, st1) => forOf ys body st1
    | (Throw e, st1) => (Throw e, st1)
    end.
Proof.
  revert st; induction xs as [|x xs IH]; intros st; [reflexivity|].
  cbn [app forOf]. unfold bind.
  destruct (body x st) as [[[]|e] st1]; [apply IH | reflexivity].
Qed.

(** One step of a reset loop whose statement fails. *)
Lemma reset_step (c : Call) (op : W -> Outcome unit * W) (st : State W)
    (d : DriverError) (w' : W) :
  op (world st) = (Failed d, w') ->
  tryCatch (call c op)
    (fun error =>
       bind (lift (isNoSuchTableError error))
         (fun noSuchTable => if noSuchTable then ret tt else throw error)) st
  = (match isNoSuchTableError (errorValue d) with
     | Ok true => Ok tt
     | Ok false => Throw (errorValue d)
     | Throw e => Throw e
     end, {| world := w'; calls := calls st ++ [c] |}).
Proof.
  intros Hop. unfold tryCatch, call, bind, lift, throw, ret. rewrite Hop.
  now destruct (isNoSuchTableError (errorValue d)) as [[|]|e].
Qed.

(** C6: in [dropTables] and in [truncateTables], at any table of the
    catalog whose statement fails: when the error is classified as a
    missing table, the loop goes on with the tables that follow; when it is
    classified otherwise, the call throws that error there, and no
    statement is issued for the tables that follow. *)
Theorem reset_swallows_or_aborts (db : DbConnection) (st : State W)
    (before : list string) (tableName : string) (after : list string)
    (d : DriverError) :
  allTableNames = before ++ tableName :: after ->
  (fst (forOf before (dropOne db) st) = Ok tt ->
   forall w',
     knex_dropTable db tableName (world (snd (forOf before (dropOne db) st)))
       = (Failed d, w') ->
     let st2 :=
       {| world := w';
          calls := calls (snd (forOf before (dropOne db) st))
                     ++ [CallDropTable db tableName] |} in
     (isNoSuchTableError (errorValue d) = Ok true ->
      dropTables db st = forOf after (dropOne db) st2) /\
     (isNoSuchTableError (errorValue d) = Ok false ->
      dropTables db st = (Throw (errorValue d), st2))) /\
  (fst (forOf before (truncateOne db) st) = Ok tt ->
   forall w',
     knex_truncate db tableName (world (snd (forOf before (truncateOne db) st)))
       = (Failed d, w') ->
     let st2 :=
       {| world := w';
          calls := calls (snd (forOf before (truncateOne db) st))
                     ++ [CallTruncate db tableName] |} in
     (isNoSuchTableError (errorValue d) = Ok true ->
      truncateTables db st = forOf after (truncateOne db) st2) /\
     (isNoSuchTableError (errorValue d) = Ok false ->
      truncateTables db st = (Throw (errorValue d), st2))).
Proof.
  intros Hcat. split.
  - intros Hbefore w' Hop st2. unfold dropTables. rewrite Hcat, forOf_app.
    destruct (forOf before (dropOne db) st) as [[[]|e] st1];
      simpl in Hbefore, Hop, st2; [|discriminate].
    assert (Hstep := reset_step (CallDropTable db tableName) _ _ _ _ Hop).
    fold (schema_dropTable db tableName) in Hstep.
    fold (dropOne db tableName) in Hstep.
    cbn [forOf]. unfold bind. rewrite Hstep.
    split; intros ->; reflexivity.
  - intros Hbefore w' Hop st2. unfold truncateTables. rewrite Hcat, forOf_app.
    destruct (forOf before (truncateOne db) st) as [[[]|e] st1];
      simpl in Hbefore, Hop, st2; [|discriminate].
    assert (Hstep := reset_step (CallTruncate db tableName) _ _ _ _ Hop).
    fold (truncate db tableName) in Hstep.
    fold (truncateOne db tableName) in Hstep.
    cbn [forOf]. unfold bind. rewrite Hstep.
    split; intros ->; reflexivity.
Qed.

End Reset.

(** ** The reset on the two engines *)

Lemma server_reset_step_postgres (s : Server) (db : DbConnection)
    (cs : list Call) (tableName : string) :
  backend s = Postgres -> (upAt s <= clock s)%Z ->
  (exists s' cs',
     dropOne db tableName {| world := s; calls := cs |}
       = (Ok tt, {| world := s'; calls := cs' |}) /\
     backend s' = Postgres /\ (upAt s' <= clock s')%Z) /\
  (exists s' cs',
     truncateOne db tableName {| world := s; calls := cs |}
       = (Ok tt, {| world := s'; calls := cs' |}) /\
     backend s' = Postgres /\ (upAt s' <= clock s')%Z).
Proof.
  intros Hb Hup.
  assert (Hlt : (clock s <? upAt s)%Z = false) by (apply Z.ltb_ge; lia).
  split.
  - unfold dropOne, tryCatch, schema_dropTable, call, bind, lift, ret; simpl.
    unfold server_dropTable, statement. rewrite Hlt.
    destruct (tables s !! tableName) as [rows|]; simpl.
    + do 2 eexists. split; [reflexivity|]. simpl. split; [assumption | lia].
    + rewrite Hb; simpl. do 2 eexists. split; [reflexivity|].
      simpl. split; [assumption | lia].
  - unfold truncateOne, tryCatch, truncate, call, bind, lift, ret; simpl.
    unfold server_truncate, statement. rewrite Hlt.
    destruct (tables s !! tableName) as [rows|]; simpl.
    + do 2 eexists. split; [reflexivity|]. simpl. split; [assumption | lia].
    + rewrite Hb; simpl. do 2 eexists. split; [reflexivity|].
      simpl. split; [assumption | lia].
Qed.

(** On PostgreSQL every missing table is reported with code 42P01: on a
    server that is up, neither reset throws, whatever tables exist. *)
Lemma reset_never_raises_on_postgres (db : DbConnection) (names : list string) :
  forall (s : Server) (cs : list Call),
    backend s = Postgres -> (upAt s <= clock s)%Z ->
    fst (forOf names (dropOne db) {| world := s; calls := cs |}) = Ok tt /\
    fst (forOf names (truncateOne db) {| world := s; calls := cs |}) = Ok tt.
Proof.
  induction names as [|t names IH]; intros s cs Hb Hup; [now split|].
  destruct (server_reset_step_postgres s db cs t Hb Hup)
    as [(s1 & cs1 & Hd & Hb1 & Hup1) (s2 & cs2 & Ht & Hb2 & Hup2)].
  cbn [forOf]. unfold bind. rewrite Hd, Ht. split.
  - apply (IH s1 cs1 Hb1 Hup1).
  - apply (IH s2 cs2 Hb2 Hup2).
Qed.

(** C4, on the code: on SQLite a first [dropTables] succeeds and the second
    one throws on the first table of the catalog, since the message
    [no such table: users] does not contain the needle; [truncateTables]
    throws at its first missing table. *)
Theorem reset_twice_raises_on_sqlite :
  fst (dropTables 0 (start (freshServer Sqlite))) = Ok tt /\
  fst (dropTables 0 (snd (dropTables 0 (start (freshServer Sqlite)))))
    = Throw (errorValue (noSuchTable Sqlite "users")) /\
  isNoSuchTableError (errorValue (noSuchTable Sqlite "users")) = Ok false /\
  isNoSuchTableError (errorValue (noSuchTable Postgres "users")) = Ok true /\
  fst (truncateTables 0 (start partialSqlite))
    = Throw (errorValue (noSuchTable Sqlite "permissions")).
Proof. repeat split; vm_compute; reflexivity. Qed.

(** ** The retry loop *)

Lemma countCalls_app (p : Call -> bool) (xs ys : list Call) :
  countCalls p (xs ++ ys) = (countCalls p xs + countCalls p ys)%nat.
Proof. unfold countCalls. now rewrite List.filter_app, length_app. Qed.

Section Retry.
Context `{Process} {W : Type} `{Knex W}.

(** One attempt, by the answers of the world. *)
Lemma attempt_eq (dbConfig : DatabaseConfig) (st : State W) :
  attempt dbConfig st =
    let cfg := makeKnexConfig dbConfig in
    let st1 := {| world := snd (knex_connect cfg (world st));
                  calls := calls st ++ [CallConnect cfg] |} in
    match fst (knex_connect cfg (world st)) with
    | Failed d => (Throw (errorValue d), st1)
    | Done db =>
        let st2 :=
          {| world := snd (knex_select db "knex_migrations" (world st1));
             calls := calls st1 ++ [CallSelect db "knex_migrations"] |} in
        match fst (knex_select db "knex_migrations" (world st1)) with
        | Done rows =>
            (Ok {| check_latestMigration := first (selectName (orderByIdAsc rows));
                   isCreated := truthy (first (selectName (orderByIdAsc rows)));
                   check_error := JNull;
                   check_connection := Some db |}, st2)
        | Failed d =>
            if match err_code d with
               | Some c => String.eqb c "42P01"
               | None => false
               end || includes (err_message d) noSuchTableNeedle
            then (Ok {| check_latestMigration := JNull; isCreated := false;
                        check_error := JNull; check_connection := Some db |}, st2)
            else (Throw (errorValue d), st2)
        end
    end.
Proof.
  unfold attempt, connectDb, call. unfold bind at 1.
  destruct (knex_connect (makeKnexConfig dbConfig) (world st)) as [[db|d] w1];
    simpl; [|reflexivity].
  unfold bind. rewrite connectionCheck_eq, latestMigration_eq. simpl.
  destruct (knex_select db "knex_migrations" w1) as [[rows|d] w2]; simpl.
  - reflexivity.
  - destruct (_ || _); reflexivity.
Qed.

(** What an attempt leaves behind: one connect call, no destroy, no sleep;
    a failure is a driver's error, a success carries no error. *)
Lemma attempt_trace (dbConfig : DatabaseConfig) (st : State W) :
  exists r st' new,
    attempt dbConfig st = (r, st') /\
    calls st' = calls st ++ new /\
    countCalls isConnect new = 1%nat /\
    countCalls isDestroy new = 0%nat /\
    countCalls isSleep new = 0%nat /\
    match r with
    | Ok check => check_error check = JNull
    | Throw e => exists d, e = errorValue d
    end.
Proof.
  rewrite attempt_eq. cbv zeta.
  destruct (knex_connect (makeKnexConfig dbConfig) (world st)) as [[db|d] w1];
    simpl.
  - destruct (knex_select db "knex_migrations" w1) as [[rows|d] w2]; simpl.
    + do 3 eexists. split; [reflexivity|]. simpl.
      split; [now rewrite <- app_assoc|]. repeat split.
    + destruct (_ || _).
      * do 3 eexists. split; [reflexivity|]. simpl.
        split; [now rewrite <- app_assoc|]. repeat split.
      * do 3 eexists. split; [reflexivity|]. simpl.
        split; [now rewrite <- app_assoc|]. repeat split. now exists d.
  - do 3 eexists. split; [reflexivity|]. simpl.
    split; [reflexivity|]. repeat split. now exists d.
Qed.

(** An attempt does not end before it starts. *)
Lemma attempt_forward `{!TimePasses W} (dbConfig : DatabaseConfig) (st : State W) :
  (clock_now (world st) <= clock_now (world (snd (attempt dbConfig st))))%Z.
Proof.
  rewrite attempt_eq. cbv zeta.
  pose proof (connect_forward (makeKnexConfig dbConfig) (world st)) as Hc.
  destruct (knex_connect (makeKnexConfig dbConfig) (world st)) as [[db|d] w1];
    simpl in *; [|assumption].
  pose proof (select_forward db "knex_migrations" w1) as Hs.
  destruct (knex_select db "knex_migrations" w1) as [[rows|d] w2]; simpl in *.
  - lia.
  - destruct (_ || _); simpl; lia.
Qed.

(** The [catch] block and the deadline test, after a driver's error. *)
Lemma afterFailure_eq (startTime : Z) (d : DriverError) (st : State W) :
  afterFailure startTime (errorValue d) st =
    let st1 :=
      {| world := world st;
         calls := calls st ++ [CallLog "info" "Could not connect. Will try again."
                                 (JStr (err_message d))] |} in
    if (clock_now (world st) - startTime >? timeout)%Z then
      (Throw (newError ("Timeout trying to connect to database. Last error was: "
                          +:+ err_message d)),
       {| world := world st;
          calls := calls st1 ++ [CallLog "error" "Timeout trying to connect to database:"
                                   (errorValue d)] |})
    else (Ok tt, st1).
Proof.
  unfold afterFailure, bind, lift, loggerInfo, loggerError, dateNow, throw, ret.
  rewrite errorValue_message. simpl.
  destruct (_ >? _)%Z; reflexivity.
Qed.

(** More fuel does not change a result. *)
Lemma waitLoop_more_fuel (dbConfig : DatabaseConfig) (startTime : Z) (fuel : nat) :
  forall (st : State W) (more : nat) out,
    waitLoop fuel dbConfig startTime st = Some out ->
    waitLoop (fuel + more) dbConfig startTime st = Some out.
Proof.
  induction fuel as [|fuel IH]; intros st more out; [discriminate|].
  cbn [waitLoop Nat.add].
  destruct (attempt dbConfig st) as [[check|error] st1]; [trivial|].
  destruct (afterFailure startTime error st1) as [[[]|e] st2]; [|trivial].
  destruct (msleep 1000 st2) as [[[]|e] st3]; [|trivial].
  apply IH.
Qed.

Lemma waitLoop_ends `{!TimePasses W} (dbConfig : DatabaseConfig) (startTime : Z)
    (fuel : nat) :
  forall st : State W,
    (1 <= fuel)%nat ->
    (clock_now (world st) - startTime + 1000 * (Z.of_nat fuel - 1) > timeout)%Z ->
    exists r st',
      waitLoop fuel dbConfig startTime st = Some (r, st') /\
      waitOutcome dbConfig startTime r st'.
Proof.
  induction fuel as [|fuel IH]; intros st Hfuel Htime; [lia|].
  cbn [waitLoop].
  pose proof (attempt_forward dbConfig st) as Hclock.
  destruct (attempt_trace dbConfig st)
    as (r & st1 & new & Hatt & _ & _ & _ & _ & Hr).
  rewrite Hatt in Hclock |- *. cbn [snd] in Hclock.
  destruct r as [check|error].
  - exists (Ok check), st1. split; [reflexivity|].
    split; [assumption | now exists st].
  - destruct Hr as [d ->]. rewrite afterFailure_eq. cbv zeta.
    destruct (clock_now (world st1) - startTime >? timeout)%Z eqn:Elate.
    + do 2 eexists. split; [reflexivity|].
      exists st, d, st1. simpl. repeat split; [assumption | lia].
    + rewrite Z.gtb_ltb in Elate. apply Z.ltb_ge in Elate.
      unfold msleep. cbn [world calls].
      pose proof (sleep_takes 1000 (world st1)) as Hsleep.
      apply IH; cbn [world]; lia.
Qed.

(** C1, as amended: with fuel for 32 iterations [waitForConnection] ends.
    It throws only after a failed attempt at whose end more than [timeout]
    (30000) milliseconds have passed since the start, and the message of
    what it throws ends with the message of that attempt's error; an
    attempt fails with an error of the driver; a failed attempt that ends
    past the timeout makes the call throw, there and then; a failed attempt
    that ends within the timeout is followed by a sleep of 1000
    milliseconds and another attempt; an attempt that succeeds is returned,
    whatever time has passed. *)
Theorem waitForConnection_outcome `{!TimePasses W} (dbConfig : DatabaseConfig)
    (st : State W) (fuel : nat) :
  (32 <= fuel)%nat ->
  (exists r st',
     waitForConnection fuel dbConfig st = Some (r, st') /\
     waitOutcome dbConfig (clock_now (world st)) r st') /\
  (forall startTime st0 check st1,
     attempt dbConfig st0 = (Ok check, st1) ->
     waitLoop fuel dbConfig startTime st0 = Some (Ok check, st1)) /\
  (forall startTime st0 d st1 more,
     attempt dbConfig st0 = (Throw (errorValue d), st1) ->
     (clock_now (world st1) - startTime <= timeout)%Z ->
     waitLoop (S more) dbConfig startTime st0 =
       waitLoop more dbConfig startTime
         {| world := clock_sleep 1000 (world st1);
            calls := calls st1
                       ++ [CallLog "info" "Could not connect. Will try again."
                             (JStr (err_message d))]
                       ++ [CallSleep 1000] |}) /\
  (forall startTime st0 d st1 more,
     attempt dbConfig st0 = (Throw (errorValue d), st1) ->
     (clock_now (world st1) - startTime > timeout)%Z ->
     waitLoop (S more) dbConfig startTime st0 =
       Some (Throw (newError
                      ("Timeout trying to connect to database. Last error was: "
                         +:+ err_message d)),
             {| world := world st1;
                calls := calls st1
                           ++ [CallLog "info" "Could not connect. Will try again."
                                 (JStr (err_message d))]
                           ++ [CallLog "error" "Timeout trying to connect to database:"
                                 (errorValue d)] |})) /\
  (forall st0 e st1,
     attempt dbConfig st0 = (Throw e, st1) -> exists d, e = errorValue d).
Proof.
  intros Hfuel.
  split; [|split; [|split; [|split]]].
  - unfold waitForConnection.
    destruct (waitLoop_ends dbConfig (clock_now (world st)) 32 st)
      as (r & st' & Hrun & Hout); [lia | unfold timeout; lia |].
    exists r, st'. split; [|assumption].
    replace fuel with (32 + (fuel - 32))%nat by lia.
    now apply waitLoop_more_fuel.
  - intros startTime st0 check st1 Hatt.
    destruct fuel as [|fuel]; [lia|]. cbn [waitLoop]. now rewrite Hatt.
  - intros startTime st0 d st1 more Hatt Hearly.
    cbn [waitLoop]. rewrite Hatt, afterFailure_eq. cbv zeta.
    assert ((clock_now (world st1) - startTime >? timeout)%Z = false) as ->
      by (rewrite Z.gtb_ltb; apply Z.ltb_ge; lia).
    unfold msleep. cbn [world calls]. now rewrite <- app_assoc.
  - intros startTime st0 d st1 more Hatt Hlate.
    cbn [waitLoop]. rewrite Hatt, afterFailure_eq. cbv zeta.
    assert ((clock_now (world st1) - startTime >? timeout)%Z = true) as ->
      by (apply Z.gtb_gt; lia).
    cbn [calls]. now rewrite <- app_assoc.
  - intros st0 e st1 Hatt.
    destruct (attempt_trace dbConfig st0)
      as (r & st2 & new & Hatt' & _ & _ & _ & _ & Hr).
    rewrite Hatt in Hatt'. injection Hatt' as <- <-. exact Hr.
Qed.

(** C5, as amended: a run of [waitForConnection] makes one connect call for
    each attempt (one more than it sleeps) and no destroy call: the
    connection of a failed attempt is not closed. *)
Theorem waitForConnection_never_disconnects
    (dbConfig : DatabaseConfig) (fuel : nat) (st : State W)
    (r : Result ConnectionCheckResult) (st' : State W) :
  waitForConnection fuel dbConfig st = Some (r, st') ->
  exists new,
    calls st' = calls st ++ new /\
    countCalls isDestroy new = 0%nat /\
    countCalls isConnect new = S (countCalls isSleep new).
Proof.
  unfold waitForConnection. generalize (clock_now (world st)) as startTime.
  intros startTime. revert st.
  induction fuel as [|fuel IH]; intros st Hrun; [discriminate|].
  cbn [waitLoop] in Hrun.
  destruct (attempt_trace dbConfig st)
    as (r1 & st1 & new1 & Hatt & Hcalls & Hconn & Hdes & Hsl & Hr).
  rewrite Hatt in Hrun. destruct r1 as [check|error].
  - injection Hrun as <- <-. exists new1.
    split; [assumption|]. split; [assumption|]. now rewrite Hconn, Hsl.
  - destruct Hr as [d ->]. rewrite afterFailure_eq in Hrun. cbv zeta in Hrun.
    destruct (clock_now (world st1) - startTime >? timeout)%Z.
    + injection Hrun as <- <-. eexists. cbn [calls]. rewrite Hcalls.
      rewrite <- !app_assoc. split; [reflexivity|].
      rewrite !countCalls_app, Hconn, Hdes, Hsl. split; reflexivity.
    + unfold msleep in Hrun. cbn [world calls] in Hrun.
      apply IH in Hrun as (new & Hnew & Hd & Hc). cbn [calls] in Hnew.
      eexists. rewrite Hnew, Hcalls, <- !app_assoc. split; [reflexivity|].
      rewrite !countCalls_app, Hconn, Hdes, Hsl, Hd, Hc.
      split; [reflexivity|]. cbn. lia.
Qed.

End Retry.

(** ** The properties on the concrete world *)

#[export] Instance server_time : TimePasses Server.
Proof.
  split.
  - intros ms w. simpl. lia.
  - intros cfg w. simpl. unfold server_connect.
    destruct (_ || _); simpl; lia.
  - intros db t w. simpl. unfold server_select, statement.
    destruct (clock w <? upAt w)%Z; simpl; [lia|].
    destruct (tables w !! t); simpl; lia.
Qed.

(** C1 as stated fails: the server comes up between the thirtieth retry and
    the next; the attempt that follows succeeds and the call returns 30155
    milliseconds after it started, past the deadline. *)
Lemma deadline_counterexample :
  exists check st',
    waitForConnection 40 postgresConfig (start lateServer) = Some (Ok check, st') /\
    (clock (world st') - clock lateServer = 30155)%Z /\
    (clock (world st') - clock lateServer > timeout)%Z.
Proof.
  do 2 eexists. split; [vm_compute; reflexivity|].
  split; vm_compute; reflexivity.
Qed.

(** C5 as stated fails: two attempts fail at the probe before the server is
    up; when the call returns, with connection 2, connections 0 and 1 are
    still open and no destroy call was made. *)
Lemma leak_counterexample :
  exists check st',
    waitForConnection 5 postgresConfig (start slowStart) = Some (Ok check, st') /\
    check_connection check = Some 2%nat /\
    openConnections (world st') = [0; 1; 2]%nat /\
    countCalls isDestroy (calls st') = 0%nat /\
    countCalls isConnect (calls st') = 3%nat.
Proof.
  do 2 eexists. split; [vm_compute; reflexivity|].
  repeat split; vm_compute; reflexivity.
Qed.

(** Against a server that never comes up the call throws, with the
    driver's last message in its own. *)
Example down_server_times_out :
  option_map fst (waitForConnection 32 postgresConfig (start downServer)) =
    Some (Throw (newError
      "Timeout trying to connect to database. Last error was: connect ECONNREFUSED 127.0.0.1:5432")).
Proof. vm_compute. reflexivity. Qed.

Lemma waitForConnection_outcome_witness :
  (32 <= 32)%nat /\
  (exists r st',
     waitForConnection 32 postgresConfig (start downServer) = Some (r, st') /\
     waitOutcome postgresConfig (clock_now (world (start downServer))) r st') /\
  attempt postgresConfig (start downServer)
    = (Throw (errorValue connectionRefused),
       snd (attempt postgresConfig (start downServer))) /\
  (clock_now (world (snd (attempt postgresConfig (start downServer))))
     - (-30000) > timeout)%Z /\
  waitLoop 1 postgresConfig (-30000) (start downServer) =
    Some (Throw (newError
                   ("Timeout trying to connect to database. Last error was: "
                      +:+ err_message connectionRefused)),
          {| world := world (snd (attempt postgresConfig (start downServer)));
             calls := calls (snd (attempt postgresConfig (start downServer)))
                        ++ [CallLog "info" "Could not connect. Will try again."
                              (JStr (err_message connectionRefused))]
                        ++ [CallLog "error" "Timeout trying to connect to database:"
                              (errorValue connectionRefused)] |}).
Proof.
  assert (Hfuel : (32 <= 32)%nat) by lia.
  assert (Hatt : attempt postgresConfig (start downServer)
                 = (Throw (errorValue connectionRefused),
                    snd (attempt postgresConfig (start downServer))))
    by (vm_compute; reflexivity).
  assert (Hlate : (clock_now (world (snd (attempt postgresConfig (start downServer))))
                     - (-30000) > timeout)%Z)
    by (vm_compute; reflexivity).
  split; [exact Hfuel|]. split.
  - exact (proj1 (waitForConnection_outcome postgresConfig (start downServer) 32 Hfuel)).
  - split; [exact Hatt|]. split; [exact Hlate|].
    exact (proj1 (proj2 (proj2 (proj2
             (waitForConnection_outcome postgresConfig (start downServer) 32 Hfuel))))
             (-30000)%Z (start downServer) connectionRefused _ 0%nat Hatt Hlate).
Defined.

Lemma waitForConnection_never_disconnects_witness :
  waitForConnection 5 postgresConfig (start slowStart)
    = Some (fst slowStartRun, snd slowStartRun) /\
  exists new,
    calls (snd slowStartRun) = calls (start slowStart) ++ new /\
    countCalls isDestroy new = 0%nat /\
    countCalls isConnect new = S (countCalls isSleep new).
Proof.
  assert (Hrun : waitForConnection 5 postgresConfig (start slowStart)
                 = Some (fst slowStartRun, snd slowStartRun))
    by (vm_compute; reflexivity).
  split; [exact Hrun|].
  exact (waitForConnection_never_disconnects postgresConfig 5 (start slowStart)
           (fst slowStartRun) (snd slowStartRun) Hrun).
Defined.

Lemma connectionCheck_probe_witness :
  knex_select 0%nat "knex_migrations" (world (start emptySqlite))
    = (Failed (noSuchTable Sqlite "knex_migrations"), tick emptySqlite) /\
  isNoSuchTableError (errorValue (noSuchTable Sqlite "knex_migrations")) = Ok true /\
  fst (connectionCheck 0%nat (start emptySqlite)) =
    Ok {| isCreated := false; check_error := JNull;
          check_latestMigration := JNull; check_connection := Some 0%nat |}.
Proof.
  assert (Hsel : knex_select 0%nat "knex_migrations" (world (start emptySqlite))
                 = (Failed (noSuchTable Sqlite "knex_migrations"), tick emptySqlite))
    by reflexivity.
  assert (Hcls : isNoSuchTableError (errorValue (noSuchTable Sqlite "knex_migrations"))
                 = Ok true) by reflexivity.
  split; [exact Hsel|]. split; [exact Hcls|].
  exact (proj1 (connectionCheck_probe 0%nat (start emptySqlite)) _ _ Hsel Hcls).
Defined.

Lemma latestMigration_smallest_id_witness :
  exists found,
    In found [ {| row_id := 2; row_name := "20200728130400_shares.js" |};
               {| row_id := 1; row_name := "20190913171451_create.js" |};
               {| row_id := 3; row_name := "20201114161249_changes.js" |} ] /\
    (forall r,
       In r [ {| row_id := 2; row_name := "20200728130400_shares.js" |};
              {| row_id := 1; row_name := "20190913171451_create.js" |};
              {| row_id := 3; row_name := "20201114161249_changes.js" |} ] ->
       (row_id found <= row_id r)%Z) /\
    fst (latestMigration 0%nat (start migratedSqlite))
      = Ok (JObj [("name", JStr (row_name found))]).
Proof.
  apply (latestMigration_smallest_id 0%nat (start migratedSqlite) _
           (tick migratedSqlite)).
  - reflexivity.
  - discriminate.
Defined.

Lemma isNoSuchTableError_classification_witness :
  knex_dropTable 0%nat "users" (world (start emptySqlite))
    = (Failed (noSuchTable Sqlite "users"), tick emptySqlite) /\
  isNoSuchTableError (errorValue (noSuchTable Sqlite "users")) = Ok false /\
  fst (dropOne 0%nat "users" (start emptySqlite))
    = Throw (errorValue (noSuchTable Sqlite "users")).
Proof.
  assert (Hop : knex_dropTable 0%nat "users" (world (start emptySqlite))
                = (Failed (noSuchTable Sqlite "users"), tick emptySqlite))
    by reflexivity.
  assert (Hcls : isNoSuchTableError (errorValue (noSuchTable Sqlite "users"))
                 = Ok false) by reflexivity.
  split; [exact Hop|]. split; [exact Hcls|].
  exact (proj1 (proj2 (proj2 (proj2
           (isNoSuchTableError_classification
              (errorValue (noSuchTable Sqlite "users"))))
           0%nat (start emptySqlite) (noSuchTable Sqlite "users")
           (tick emptySqlite) eq_refl Hcls)) "users" Hop).
Defined.

Lemma isNoSuchTableError_total_on_searchable_witness :
  ~ tableNotFoundShape (JObj [("code", JStr "ECONNREFUSED")]) /\
  searchable (messageOf (JObj [("code", JStr "ECONNREFUSED")])) /\
  isNoSuchTableError (JObj [("code", JStr "ECONNREFUSED")]) = Ok false.
Proof.
  assert (Hshape : ~ tableNotFoundShape (JObj [("code", JStr "ECONNREFUSED")])).
  { intros [Hc|[(s & pre & post & Hm & _)|(its & Hm & _)]]; discriminate. }
  assert (Hmsg : searchable (messageOf (JObj [("code", JStr "ECONNREFUSED")])))
    by (left; reflexivity).
  split; [exact Hshape|]. split; [exact Hmsg|].
  exact (proj1 (proj2 (proj2
           (isNoSuchTableError_total_on_searchable
              (JObj [("code", JStr "ECONNREFUSED")])))) Hshape Hmsg).
Defined.

Lemma makeKnexConfig_deterministic_witness :
  client sqliteConfig = "sqlite3" /\
  client postgresConfig <> "sqlite3" /\
  conn_filename (connection (makeKnexConfig sqliteConfig))
    = Some "/home/joplin/packages/server/db-dev.sqlite" /\
  connection (makeKnexConfig postgresConfig) =
    {| conn_host := Some "localhost"; conn_port := Some 5432%Z;
       conn_user := Some "joplin"; conn_database := Some "joplin";
       conn_filename := None; conn_password := Some "joplin" |}.
Proof.
  assert (Hs : client sqliteConfig = "sqlite3") by reflexivity.
  assert (Hp : client postgresConfig <> "sqlite3") by discriminate.
  split; [exact Hs|]. split; [exact Hp|]. split.
  - exact (f_equal conn_filename
             (proj1 (proj1 (proj2 (makeKnexConfig_deterministic sqliteConfig)) Hs))).
  - exact (proj2 (proj2 (makeKnexConfig_deterministic postgresConfig)) Hp).
Defined.

Lemma reset_swallows_or_aborts_witness :
  dropTables 0%nat (start (freshServer Postgres))
    = (Ok tt, snd (dropTables 0%nat (start (freshServer Postgres)))) /\
  dropTables 0%nat (start emptySqlite)
    = (Throw (errorValue (noSuchTable Sqlite "users")),
       {| world := tick emptySqlite; calls := [CallDropTable 0%nat "users"] |}).
Proof.
  split; [vm_compute; reflexivity|].
  assert (Hcat : allTableNames = [] ++ "users" :: List.tl allTableNames)
    by reflexivity.
  exact (proj2 (proj1 (reset_swallows_or_aborts 0%nat (start emptySqlite) []
                         "users" (List.tl allTableNames)
                         (noSuchTable Sqlite "users") Hcat)
                  eq_refl (tick emptySqlite) eq_refl) eq_refl).
Defined.

(** * Further properties of the module *)

(** ** Change types *)


(** ** File names *)

Lemma string_length_app (s1 s2 : string) :
  String.length (s1 +:+ s2) = (String.length s1 + String.length s2)%nat.
Proof. induction s1 as [|a s1 IH]; simpl; [reflexivity | now rewrite IH]. Qed.

Lemma string_app_inv_tail (s1 s2 suffix : string) :
  s1 +:+ suffix = s2 +:+ suffix -> s1 = s2.
Proof.
  revert s2; induction s1 as [|a s1 IH]; intros [|b s2] Heq.
  - reflexivity.
  - apply (f_equal String.length) in Heq.
    rewrite !string_length_app in Heq. cbn [String.length] in Heq. lia.
  - apply (f_equal String.length) in Heq.
    rewrite !string_length_app in Heq. cbn [String.length] in Heq. lia.
  - injection Heq as -> Heq. f_equal. now apply IH.
Qed.

Lemma string_app_inv_head (prefix s1 s2 : string) :
  prefix +:+ s1 = prefix +:+ s2 -> s1 = s2.
Proof.
  induction prefix as [|a prefix IH]; simpl; [trivial|].
  intros [= Heq]. now apply IH.
Qed.

Section FileNames.
Context `{Process}.

(** X10: two database names that differ never resolve to the same SQLite
    file. *)
Theorem sqliteFilePath_injective (name1 name2 : string) :
  sqliteFilePath name1 = sqliteFilePath name2 -> name1 = name2.
Proof.
  unfold sqliteFilePath. intros Heq.
  apply string_app_inv_head, string_app_inv_head in Heq.
  now apply string_app_inv_tail in Heq.
Qed.

End FileNames.

(** ** Traces of the reset and of the retry loop *)

Section Traces.
Context `{Process} {W : Type} `{Knex W}.

Lemma resetOne_calls (c : Call) (op : W -> Outcome unit * W) (st : State W) :
  calls (snd (tryCatch (call c op)
                (fun error =>
                   bind (lift (isNoSuchTableError error))
                     (fun noSuchTable =>
                        if noSuchTable then ret tt else throw error)) st))
  = calls st ++ [c].
Proof.
  unfold tryCatch, call, bind, lift, ret, throw.
  destruct (op (world st)) as [[[]|d] w']; simpl; [reflexivity|].
  destruct (isNoSuchTableError (errorValue d)) as [[|]|e]; reflexivity.
Qed.

Lemma forOf_trace (body : string -> M W unit) (mk : string -> Call)
    (Hbody : forall t st, calls (snd (body t st)) = calls st ++ [mk t])
    (names : list string) :
  forall st : State W,
    exists issued skipped,
      names = issued ++ skipped /\
      calls (snd (forOf names body st)) = calls st ++ map mk issued /\
      (fst (forOf names body st) = Ok tt -> skipped = []) /\
      (isThrow (fst (forOf names body st)) = true -> issued <> []).
Proof.
  induction names as [|t names IH]; intros st.
  - exists [], []. simpl. rewrite app_nil_r. repeat split; discriminate.
  - cbn [forOf]. unfold bind. specialize (Hbody t st).
    destruct (body t st) as [[[]|e] st1]; simpl in Hbody.
    + destruct (IH st1) as (issued & skipped & -> & Hcalls & Hok & Hthrow).
      exists (t :: issued), skipped. rewrite Hcalls, Hbody, <- app_assoc.
      repeat split; [assumption | discriminate].
    + exists [t], names. simpl.
      repeat split; [assumption | discriminate | discriminate].
Qed.

(** X1: [dropTables] issues its statements in the order of the catalog, one
    for each table and none for another, and stops at the table where it
    throws; it reaches the end of the catalog when it returns.  The same
    holds of [truncateTables]. *)
Theorem reset_trace (db : DbConnection) (st : State W) :
  (exists issued skipped,
     allTableNames = issued ++ skipped /\
     calls (snd (dropTables db st))
       = calls st ++ map (CallDropTable db) issued /\
     (fst (dropTables db st) = Ok tt -> skipped = []) /\
     (isThrow (fst (dropTables db st)) = true -> issued <> [])) /\
  (exists issued skipped,
     allTableNames = issued ++ skipped /\
     calls (snd (truncateTables db st))
       = calls st ++ map (CallTruncate db) issued /\
     (fst (truncateTables db st) = Ok tt -> skipped = []) /\
     (isThrow (fst (truncateTables db st)) = true -> issued <> [])).
Proof.
  split.
  - apply (forOf_trace (dropOne db) (CallDropTable db)).
    intros t st0. apply resetOne_calls.
  - apply (forOf_trace (truncateOne db) (CallTruncate db)).
    intros t st0. apply resetOne_calls.
Qed.

(** The two ways an attempt goes: the connect call fails; or it gives a
    connection, on which the probe runs its one query. *)
Lemma attempt_cases (dbConfig : DatabaseConfig) (st : State W) :
  (exists d w1,
     attempt dbConfig st =
       (Throw (errorValue d),
        {| world := w1;
           calls := calls st ++ [CallConnect (makeKnexConfig dbConfig)] |})) \/
  (exists db r w2,
     fst (knex_connect (makeKnexConfig dbConfig) (world st)) = Done db /\
     attempt dbConfig st =
       (r, {| world := w2;
              calls := calls st ++ [CallConnect (makeKnexConfig dbConfig);
                                    CallSelect db "knex_migrations"] |}) /\
     match r with
     | Ok check =>
         check_connection check = Some db /\
         check_error check = JNull /\
         (isCreated check = true <->
          exists n, check_latestMigration check = JObj [("name", JStr n)])
     | Throw e => exists d, e = errorValue d
     end).
Proof.
  rewrite attempt_eq. cbv zeta.
  destruct (knex_connect (makeKnexConfig dbConfig) (world st)) as [[db|d] w1];
    simpl.
  - right.
    destruct (knex_select db "knex_migrations" w1) as [[rows|d] w2]; simpl.
    + exists db. do 2 eexists. split; [reflexivity|].
      rewrite <- app_assoc. split; [reflexivity|]. simpl.
      split; [reflexivity|]. split; [reflexivity|].
      destruct rows as [|r rows].
      * simpl. split; [discriminate | intros [n [=]]].
      * destruct (orderByIdAsc_first (r :: rows)) as (h & t & -> & _);
          [discriminate|].
        simpl. split; [intros _; now eexists | reflexivity].
    + destruct (_ || _).
      * exists db. do 2 eexists. split; [reflexivity|].
        rewrite <- app_assoc. split; [reflexivity|]. simpl.
        split; [reflexivity|]. split; [reflexivity|].
        split; [discriminate | intros [n [=]]].
      * exists db. do 2 eexists. split; [reflexivity|].
        rewrite <- app_assoc. split; [reflexivity|]. now exists d.
  - left. now exists d, w1.
Qed.

(** Every result of the loop is the end of a run. *)
Lemma waitLoop_run (dbConfig : DatabaseConfig) (startTime : Z) (fuel : nat) :
  forall (st : State W) r st',
    waitLoop fuel dbConfig startTime st = Some (r, st') ->
    WaitRun dbConfig startTime st r st'.
Proof.
  induction fuel as [|fuel IH]; intros st r st' Hrun; [discriminate|].
  cbn [waitLoop] in Hrun.
  destruct (attempt_trace dbConfig st) as (r1 & st1 & new & Hatt & _ & _ & _ & _ & Hr).
  rewrite Hatt in Hrun. destruct r1 as [check|error].
  - injection Hrun as <- <-. now apply run_connected.
  - destruct Hr as [d ->]. rewrite afterFailure_eq in Hrun. cbv zeta in Hrun.
    destruct (clock_now (world st1) - startTime >? timeout)%Z eqn:Elate.
    + injection Hrun as <- <-. cbn [calls]. rewrite <- app_assoc.
      apply run_timeout; [assumption|]. now apply Z.gtb_gt.
    + unfold msleep in Hrun. cbn [world calls] in Hrun.
      rewrite <- app_assoc in Hrun.
      rewrite Z.gtb_ltb in Elate. apply Z.ltb_ge in Elate.
      eapply run_retry; [eassumption | assumption |].
      apply IH. exact Hrun.
Qed.

Lemma attempt_new_calls (dbConfig : DatabaseConfig) (st : State W) :
  exists new,
    calls (snd (attempt dbConfig st)) = calls st ++ new /\
    Forall (waitCall dbConfig) new /\
    countCalls isSleep new = 0%nat /\
    countCalls (isLog "info") new = 0%nat /\
    countCalls (isLog "error") new = 0%nat.
Proof.
  destruct (attempt_cases dbConfig st) as [(d & w1 & ->)|(db & r & w2 & _ & -> & _)];
    eexists; (split; [reflexivity|]); split; try (repeat split; fail);
    repeat constructor.
Qed.

(** The calls of a run: only those of [waitCall]; one [info] line for each
    failed attempt, and one [error] line when the run ends in a throw. *)
Lemma WaitRun_trace (dbConfig : DatabaseConfig) (startTime : Z)
    (st : State W) r st' :
  WaitRun dbConfig startTime st r st' ->
  exists new,
    calls st' = calls st ++ new /\
    Forall (waitCall dbConfig) new /\
    countCalls (isLog "info") new
      = (countCalls isSleep new + if isThrow r then 1 else 0)%nat /\
    countCalls (isLog "error") new = (if isThrow r then 1 else 0)%nat.
Proof.
  induction 1 as [st check st1 Hatt|st d st1 Hatt Hlate
                 |st d st1 r st' Hatt Hearly Hrun IH].
  - destruct (attempt_new_calls dbConfig st) as (new & Hc & Hall & Hs & Hi & He).
    rewrite Hatt in Hc. exists new. simpl in *. rewrite Hs, Hi, He. auto.
  - destruct (attempt_new_calls dbConfig st) as (new & Hc & Hall & Hs & Hi & He).
    rewrite Hatt in Hc. simpl in Hc. eexists. cbn [calls].
    rewrite Hc, <- app_assoc. split; [reflexivity|]. split.
    + apply Forall_app. split; [assumption | repeat constructor].
    + rewrite !countCalls_app, Hs, Hi, He. split; reflexivity.
  - destruct (attempt_new_calls dbConfig st) as (new & Hc & Hall & Hs & Hi & He).
    rewrite Hatt in Hc. simpl in Hc.
    destruct IH as (new' & Hc' & Hall' & Hi' & He'). cbn [calls] in Hc'.
    eexists. rewrite Hc', Hc, <- !app_assoc. split; [reflexivity|]. split.
    + apply Forall_app. split; [assumption|].
      apply Forall_app. split; [repeat constructor | assumption].
    + rewrite !countCalls_app, Hs, Hi, He, Hi', He'. split; [|reflexivity].
      cbn. lia.
Qed.

(** X6: while it waits, the module only creates connections with the
    resolved configuration, reads [knex_migrations], sleeps 1000
    milliseconds and logs: it never drops or truncates a table and never
    destroys a connection. *)
Theorem waitForConnection_read_only (dbConfig : DatabaseConfig) (fuel : nat)
    (st : State W) (r : Result ConnectionCheckResult) (st' : State W) :
  waitForConnection fuel dbConfig st = Some (r, st') ->
  exists new,
    calls st' = calls st ++ new /\ Forall (waitCall dbConfig) new.
Proof.
  intros Hrun. apply waitLoop_run, WaitRun_trace in Hrun.
  destruct Hrun as (new & Hc & Hall & _). now exists new.
Qed.

(** X7: the module logs one [info] line for each failed attempt (each
    sleep follows one, and so does the final throw) and one [error] line
    exactly when it gives up. *)
Theorem waitForConnection_logs (dbConfig : DatabaseConfig) (fuel : nat)
    (st : State W) (r : Result ConnectionCheckResult) (st' : State W) :
  waitForConnection fuel dbConfig st = Some (r, st') ->
  exists new,
    calls st' = calls st ++ new /\
    countCalls (isLog "info") new
      = (countCalls isSleep new + if isThrow r then 1 else 0)%nat /\
    countCalls (isLog "error") new = (if isThrow r then 1 else 0)%nat.
Proof.
  intros Hrun. apply waitLoop_run, WaitRun_trace in Hrun.
  destruct Hrun as (new & Hc & _ & Hi & He). now exists new.
Qed.

(** One attempt that succeeds, by what the world answered. *)
Lemma attempt_connected (dbConfig : DatabaseConfig) (st : State W)
    (check : ConnectionCheckResult) (st1 : State W) :
  attempt dbConfig st = (Ok check, st1) ->
  exists db,
    fst (knex_connect (makeKnexConfig dbConfig) (world st)) = Done db /\
    check_connection check = Some db /\
    check_error check = JNull /\
    (isCreated check = true <->
     exists n, check_latestMigration check = JObj [("name", JStr n)]) /\
    world st1 = snd (knex_select db "knex_migrations"
                       (snd (knex_connect (makeKnexConfig dbConfig) (world st)))) /\
    calls st1 = calls st ++ [CallConnect (makeKnexConfig dbConfig);
                             CallSelect db "knex_migrations"].
Proof.
  rewrite attempt_eq. cbv zeta.
  destruct (knex_connect (makeKnexConfig dbConfig) (world st)) as [[db|d] w1];
    simpl; [|discriminate].
  destruct (knex_select db "knex_migrations" w1) as [[rows|d] w2] eqn:Esel; simpl.
  - intros [= <- <-]. exists db. rewrite Esel. simpl. rewrite <- app_assoc.
    split; [reflexivity|]. split; [reflexivity|]. split; [reflexivity|].
    split; [|split; reflexivity].
    destruct rows as [|r rows].
    + simpl. split; [discriminate | intros [n [=]]].
    + destruct (orderByIdAsc_first (r :: rows)) as (h & t & -> & _);
        [discriminate|].
      simpl. split; [intros _; now eexists | reflexivity].
  - destruct (_ || _); [|discriminate].
    intros [= <- <-]. exists db. rewrite Esel. simpl. rewrite <- app_assoc.
    split; [reflexivity|]. split; [reflexivity|]. split; [reflexivity|].
    split; [|split; reflexivity].
    split; [discriminate | intros [n [=]]].
Qed.

(** X8: a result that [waitForConnection] returns carries the connection
    that the connect call of its last attempt gave, on which the last
    query of the trace ran, and no error; [isCreated] holds exactly when a
    migration record came back. *)
Theorem waitForConnection_returns_connection (dbConfig : DatabaseConfig)
    (fuel : nat) (st : State W) (check : ConnectionCheckResult) (st' : State W) :
  waitForConnection fuel dbConfig st = Some (Ok check, st') ->
  exists db st0 earlier,
    calls st0 = calls st ++ earlier /\
    fst (knex_connect (makeKnexConfig dbConfig) (world st0)) = Done db /\
    check_connection check = Some db /\
    check_error check = JNull /\
    (isCreated check = true <->
     exists n, check_latestMigration check = JObj [("name", JStr n)]) /\
    world st' = snd (knex_select db "knex_migrations"
                       (snd (knex_connect (makeKnexConfig dbConfig) (world st0)))) /\
    calls st' = calls st0 ++ [CallConnect (makeKnexConfig dbConfig);
                              CallSelect db "knex_migrations"].
Proof.
  intros Hrun. apply waitLoop_run in Hrun.
  remember (Ok check) as r eqn:Er.
  induction Hrun as [s0 check0 s1 Hatt|s0 d s1 Hatt Hlate
                    |s0 d s1 r0 s2 Hatt Hearly Hrun IH].
  - injection Er as ->.
    destruct (attempt_connected dbConfig s0 check s1 Hatt)
      as (db & Hconn & Hc & He & Hi & Hw & Hcalls).
    exists db, s0, []. rewrite app_nil_r. auto 10.
  - discriminate.
  - destruct (IH Er) as (db & st0 & earlier & Hpre & Hrest).
    destruct (attempt_new_calls dbConfig s0) as (new & Hnew & _).
    rewrite Hatt in Hnew. cbn [snd calls] in Hnew, Hpre.
    exists db, st0. eexists. split; [|exact Hrest].
    rewrite Hpre, Hnew, <- !app_assoc. reflexivity.
Qed.

End Traces.

(** ** The number of attempts *)

Section Bound.
Context `{Process} {W : Type} `{Knex W} `{!TimePasses W}.

Lemma attempt_new_counts (dbConfig : DatabaseConfig) (st : State W) :
  exists new,
    calls (snd (attempt dbConfig st)) = calls st ++ new /\
    countCalls isSleep new = 0%nat /\
    countCalls isConnect new = 1%nat.
Proof.
  destruct (attempt_cases dbConfig st) as [(d & w1 & ->)|(db & r & w2 & _ & -> & _)];
    eexists; (split; [reflexivity|]); split; reflexivity.
Qed.

Lemma WaitRun_sleeps (dbConfig : DatabaseConfig) (startTime : Z)
    (st : State W) r st' :
  WaitRun dbConfig startTime st r st' ->
  exists new,
    calls st' = calls st ++ new /\
    countCalls isConnect new = S (countCalls isSleep new) /\
    (countCalls isSleep new = 0%nat \/
     (1000 * Z.of_nat (countCalls isSleep new)
        + (clock_now (world st) - startTime) <= timeout + 1000)%Z).
Proof.
  induction 1 as [st check st1 Hatt|st d st1 Hatt Hlate
                 |st d st1 r st' Hatt Hearly Hrun IH].
  - destruct (attempt_new_counts dbConfig st) as (new & Hc & Hs & Hn).
    rewrite Hatt in Hc. exists new. simpl in Hc. rewrite Hs, Hn. auto.
  - destruct (attempt_new_counts dbConfig st) as (new & Hc & Hs & Hn).
    rewrite Hatt in Hc. simpl in Hc. eexists. cbn [calls].
    rewrite Hc, <- app_assoc. split; [reflexivity|].
    rewrite !countCalls_app, Hs, Hn. split; [reflexivity | now left].
  - destruct (attempt_new_counts dbConfig st) as (new & Hc & Hs & Hn).
    pose proof (attempt_forward dbConfig st) as Hfw.
    rewrite Hatt in Hc, Hfw. simpl in Hc, Hfw.
    pose proof (sleep_takes 1000 (world st1)) as Hsleep.
    destruct IH as (new' & Hc' & Hn' & Hb). cbn [calls world] in Hc', Hb.
    eexists. rewrite Hc', Hc, <- !app_assoc. split; [reflexivity|].
    rewrite !countCalls_app, Hs, Hn, Hn'.
    change (countCalls isSleep [CallLog "info" "Could not connect. Will try again."
                                  (JStr (err_message d)); CallSleep 1000]) with 1%nat.
    change (countCalls isConnect [CallLog "info" "Could not connect. Will try again."
                                    (JStr (err_message d)); CallSleep 1000]) with 0%nat.
    split; [lia|]. right. unfold timeout in *.
    destruct Hb as [-> | Hb]; lia.
Qed.

(** X9: with a clock that does not run backwards, [waitForConnection]
    sleeps at most 31 times and makes at most 32 attempts. *)
Theorem waitForConnection_bounded_attempts (dbConfig : DatabaseConfig)
    (fuel : nat) (st : State W) (r : Result ConnectionCheckResult)
    (st' : State W) :
  waitForConnection fuel dbConfig st = Some (r, st') ->
  exists new,
    calls st' = calls st ++ new /\
    (countCalls isSleep new <= 31)%nat /\
    (countCalls isConnect new <= 32)%nat.
Proof.
  intros Hrun. apply waitLoop_run, WaitRun_sleeps in Hrun.
  destruct Hrun as (new & Hc & Hn & Hb). exists new.
  split; [assumption|]. unfold timeout in Hb. lia.
Qed.

End Bound.

(** ** The order of the rows *)

Lemma NoDup_map_inj_in {A B} (f : A -> B) (l : list A) (x y : A) :
  NoDup (map f l) -> In x l -> In y l -> f x = f y -> x = y.
Proof.
  induction l as [|a l IH]; simpl; [contradiction|].
  intros Hnd Hx Hy Heq. apply NoDup_cons in Hnd as [Hnotin Hnd].
  rewrite list_elem_of_In in Hnotin.
  destruct Hx as [->|Hx], Hy as [->|Hy].
  - reflexivity.
  - exfalso. apply Hnotin. rewrite Heq. now apply in_map.
  - exfalso. apply Hnotin. rewrite <- Heq. now apply in_map.
  - now apply IH.
Qed.

Section RowOrder.
Context `{Process} {W : Type} `{Knex W}.

(** X12: when the ids of the bookkeeping table are distinct, the result of
    [latestMigration] does not depend on the order in which the engine
    stores or returns the rows. *)
Theorem latestMigration_storage_order (db db' : DbConnection)
    (st st' : State W) (rows rows' : list Row) (w1 w1' : W) :
  knex_select db "knex_migrations" (world st) = (Done rows, w1) ->
  knex_select db' "knex_migrations" (world st') = (Done rows', w1') ->
  Permutation rows rows' ->
  NoDup (map row_id rows) ->
  fst (latestMigration db st) = fst (latestMigration db' st').
Proof.
  intros Hsel Hsel' Hperm Hnd.
  rewrite !latestMigration_eq, Hsel, Hsel'; simpl. f_equal.
  destruct rows as [|r rows].
  - apply Permutation_nil in Hperm. now subst.
  - destruct (orderByIdAsc_first (r :: rows)) as (h & t & -> & Hin & Hmin);
      [discriminate|].
    destruct (orderByIdAsc_first rows') as (h' & t' & -> & Hin' & Hmin').
    { intros ->. apply Permutation_sym, Permutation_nil in Hperm. discriminate. }
    assert (Hin2 : In h' (r :: rows))
      by (eapply Permutation_in; [apply Permutation_sym|]; eassumption).
    assert (Hin3 : In h rows') by (eapply Permutation_in; eassumption).
    assert (h = h') as ->.
    { apply (NoDup_map_inj_in row_id (r :: rows)); try assumption.
      specialize (Hmin _ Hin2). specialize (Hmin' _ Hin3). lia. }
    reflexivity.
Qed.

End RowOrder.

(** ** The reset on a server that is up *)

Lemma withTables_same (s : Server) : withTables (tables s) s = s.
Proof. now destruct s. Qed.

Lemma absorbs_classified (b : Backend) (t : string) :
  isNoSuchTableError (errorValue (noSuchTable b t)) = Ok (absorbs b t).
Proof.
  unfold absorbs. rewrite isNoSuchTableError_errorValue. now destruct (_ || _).
Qed.

Lemma absorbs_postgres (t : string) : absorbs Postgres t = true.
Proof. unfold absorbs. now rewrite isNoSuchTableError_errorValue. Qed.

(** One step of [dropTables] on a server that is up. *)
Lemma server_dropOne (db : DbConnection) (t : string) (st : State Server) :
  (upAt (world st) <= clock (world st))%Z ->
  dropOne db t st =
    (match tables (world st) !! t with
     | Some _ => Ok tt
     | None =>
         if absorbs (backend (world st)) t then Ok tt
         else Throw (errorValue (noSuchTable (backend (world st)) t))
     end,
     {| world := tick (withTables (delete t (tables (world st))) (world st));
        calls := calls st ++ [CallDropTable db t] |}).
Proof.
  intros Hup.
  assert (Hlt : (clock (world st) <? upAt (world st))%Z = false)
    by (apply Z.ltb_ge; lia).
  unfold dropOne, tryCatch, schema_dropTable, call, bind, lift, ret, throw; simpl.
  unfold server_dropTable, statement. rewrite Hlt.
  destruct (tables (world st) !! t) as [rows|] eqn:E; simpl; [reflexivity|].
  rewrite (delete_id _ _ E), withTables_same, absorbs_classified.
  now destruct (absorbs _ _).
Qed.

(** One step of [truncateTables] on a server that is up. *)
Lemma server_truncateOne (db : DbConnection) (t : string) (st : State Server) :
  (upAt (world st) <= clock (world st))%Z ->
  truncateOne db t st =
    (match tables (world st) !! t with
     | Some _ => Ok tt
     | None =>
         if absorbs (backend (world st)) t then Ok tt
         else Throw (errorValue (noSuchTable (backend (world st)) t))
     end,
     {| world := tick (withTables (truncated t (tables (world st))) (world st));
        calls := calls st ++ [CallTruncate db t] |}).
Proof.
  intros Hup.
  assert (Hlt : (clock (world st) <? upAt (world st))%Z = false)
    by (apply Z.ltb_ge; lia).
  unfold truncateOne, tryCatch, truncate, call, bind, lift, ret, throw; simpl.
  unfold server_truncate, statement, truncated. rewrite Hlt.
  destruct (tables (world st) !! t) as [rows|] eqn:E; simpl; [reflexivity|].
  rewrite withTables_same, absorbs_classified.
  now destruct (absorbs _ _).
Qed.

(** A loop of reset steps over names without repetition, on a server that
    is up: it succeeds exactly when each table is there or its absence is
    absorbed; the server stays up, and the tables are those that [step]
    leaves, name after name. *)
Lemma server_reset_loop (body : string -> M Server unit)
    (step : string -> gmap string (list Row) -> gmap string (list Row))
    (mk : string -> Call)
    (Hbody : forall t st,
       (upAt (world st) <= clock (world st))%Z ->
       body t st =
         (match tables (world st) !! t with
          | Some _ => Ok tt
          | None =>
              if absorbs (backend (world st)) t then Ok tt
              else Throw (errorValue (noSuchTable (backend (world st)) t))
          end,
          {| world := tick (withTables (step t (tables (world st))) (world st));
             calls := calls st ++ [mk t] |}))
    (Hstep : forall t t' m, t <> t' -> step t m !! t' = m !! t')
    (names : list string) :
  NoDup names ->
  forall st : State Server,
    (upAt (world st) <= clock (world st))%Z ->
    (fst (forOf names body st) = Ok tt <->
     forall t, In t names ->
       is_Some (tables (world st) !! t) \/ absorbs (backend (world st)) t = true) /\
    (fst (forOf names body st) = Ok tt ->
     backend (world (snd (forOf names body st))) = backend (world st) /\
     (upAt (world (snd (forOf names body st)))
        <= clock (world (snd (forOf names body st))))%Z /\
     tables (world (snd (forOf names body st)))
       = foldl (fun m t => step t m) (tables (world st)) names).
Proof.
  induction names as [|t names IH]; intros Hnd st Hup.
  - simpl. split; [split; [intros _ t [] | reflexivity] | auto].
  - apply NoDup_cons in Hnd as [Hnotin Hnd]. rewrite list_elem_of_In in Hnotin.
    cbn [forOf foldl]. unfold bind. rewrite (Hbody t st Hup).
    set (st1 := {| world := tick (withTables (step t (tables (world st))) (world st));
                   calls := calls st ++ [mk t] |}).
    assert (Hup1 : (upAt (world st1) <= clock (world st1))%Z) by (simpl; lia).
    destruct (IH Hnd st1 Hup1) as [Hiff Hpost].
    assert (Hsame : forall t', In t' names ->
              tables (world st1) !! t' = tables (world st) !! t').
    { intros t' Hin. simpl. apply Hstep. intros ->. contradiction. }
    destruct (tables (world st) !! t) as [rows|] eqn:E.
    + split; [|exact Hpost]. rewrite Hiff. split.
      * intros Hall t' [<-|Hin]; [left; rewrite E; now eexists|].
        rewrite <- (Hsame _ Hin). now apply Hall.
      * intros Hall t' Hin. rewrite (Hsame _ Hin). apply Hall. now right.
    + destruct (absorbs (backend (world st)) t) eqn:Ea.
      * split; [|exact Hpost]. rewrite Hiff. split.
        -- intros Hall t' [<-|Hin]; [now right|].
           rewrite <- (Hsame _ Hin). now apply Hall.
        -- intros Hall t' Hin. rewrite (Hsame _ Hin). apply Hall. now right.
      * split; [|discriminate]. split; [discriminate|].
        intros Hall. destruct (Hall t (or_introl eq_refl)) as [[x Hx]|Hx];
          congruence.
Qed.

Lemma allTableNames_NoDup : NoDup allTableNames.
Proof. apply (bool_decide_unpack _). vm_compute. reflexivity. Qed.

Lemma lookup_foldl_delete (names : list string) :
  forall (m : gmap string (list Row)) (k : string),
    foldl (fun m t => delete t m) m names !! k
      = if bool_decide (k ∈ names) then None else m !! k.
Proof.
  induction names as [|t names IH]; intros m k; [reflexivity|].
  cbn [foldl]. rewrite IH.
  destruct (decide (k = t)) as [->|Hne].
  - rewrite lookup_delete_eq.
    rewrite (bool_decide_eq_true_2 (t ∈ t :: names)) by (apply elem_of_cons; now left).
    now destruct (bool_decide _).
  - rewrite lookup_delete_ne by congruence.
    destruct (bool_decide (k ∈ names)) eqn:Ein.
    + apply bool_decide_eq_true_1 in Ein.
      now rewrite (bool_decide_eq_true_2 (k ∈ t :: names))
        by (apply elem_of_cons; now right).
    + apply bool_decide_eq_false_1 in Ein.
      rewrite (bool_decide_eq_false_2 (k ∈ t :: names)); [reflexivity|].
      rewrite elem_of_cons. intros [->|Hin]; contradiction.
Qed.

Lemma lookup_truncated (t k : string) (m : gmap string (list Row)) :
  truncated t m !! k = if decide (t = k) then (fun _ => []) <$> m !! k else m !! k.
Proof.
  unfold truncated. destruct (decide (t = k)) as [->|Hne].
  - destruct (m !! k) eqn:E; [now rewrite lookup_insert_eq | now rewrite E].
  - destruct (m !! t); [now rewrite lookup_insert_ne | reflexivity].
Qed.

Lemma lookup_foldl_truncated (names : list string) :
  forall (m : gmap string (list Row)) (k : string),
    foldl (fun m t => truncated t m) m names !! k
      = if bool_decide (k ∈ names) then (fun _ => []) <$> m !! k else m !! k.
Proof.
  induction names as [|t names IH]; intros m k; [reflexivity|].
  cbn [foldl]. rewrite IH, lookup_truncated.
  destruct (decide (t = k)) as [->|Hne].
  - rewrite (bool_decide_eq_true_2 (k ∈ k :: names)) by (apply elem_of_cons; now left).
    destruct (bool_decide _); [|reflexivity]. now destruct (m !! k).
  - destruct (bool_decide (k ∈ names)) eqn:Ein.
    + apply bool_decide_eq_true_1 in Ein.
      now rewrite (bool_decide_eq_true_2 (k ∈ t :: names))
        by (apply elem_of_cons; now right).
    + apply bool_decide_eq_false_1 in Ein.
      rewrite (bool_decide_eq_false_2 (k ∈ t :: names)); [reflexivity|].
      rewrite elem_of_cons. intros [->|Hin]; [congruence | contradiction].
Qed.

Lemma server_dropTables_loop (db : DbConnection) (st : State Server) :
  (upAt (world st) <= clock (world st))%Z ->
  (fst (dropTables db st) = Ok tt <->
   forall t, In t allTableNames ->
     is_Some (tables (world st) !! t) \/ absorbs (backend (world st)) t = true) /\
  (fst (dropTables db st) = Ok tt ->
   backend (world (snd (dropTables db st))) = backend (world st) /\
   (upAt (world (snd (dropTables db st)))
      <= clock (world (snd (dropTables db st))))%Z /\
   tables (world (snd (dropTables db st)))
     = foldl (fun m t => delete t m) (tables (world st)) allTableNames).
Proof.
  apply (server_reset_loop (dropOne db) (fun t m => delete t m) (CallDropTable db)).
  - intros t st0. apply server_dropOne.
  - intros t t' m Hne. now apply lookup_delete_ne.
  - apply allTableNames_NoDup.
Qed.

Lemma server_truncateTables_loop (db : DbConnection) (st : State Server) :
  (upAt (world st) <= clock (world st))%Z ->
  (fst (truncateTables db st) = Ok tt <->
   forall t, In t allTableNames ->
     is_Some (tables (world st) !! t) \/ absorbs (backend (world st)) t = true) /\
  (fst (truncateTables db st) = Ok tt ->
   backend (world (snd (truncateTables db st))) = backend (world st) /\
   (upAt (world (snd (truncateTables db st)))
      <= clock (world (snd (truncateTables db st))))%Z /\
   tables (world (snd (truncateTables db st)))
     = foldl (fun m t => truncated t m) (tables (world st)) allTableNames).
Proof.
  apply (server_reset_loop (truncateOne db) truncated (CallTruncate db)).
  - intros t st0. apply server_truncateOne.
  - intros t t' m Hne. rewrite lookup_truncated. now destruct (decide (t = t')).
  - apply allTableNames_NoDup.
Qed.

(** X2: on a server that is up, when [dropTables] returns, no table of the
    catalog is left and every other table is as it was. *)
Theorem dropTables_clears_catalog (db : DbConnection) (st : State Server) :
  (upAt (world st) <= clock (world st))%Z ->
  fst (dropTables db st) = Ok tt ->
  (forall k, In k allTableNames ->
     tables (world (snd (dropTables db st))) !! k = None) /\
  (forall k, ~ In k allTableNames ->
     tables (world (snd (dropTables db st))) !! k = tables (world st) !! k).
Proof.
  intros Hup Hok.
  destruct (server_dropTables_loop db st Hup) as [_ Hpost].
  destruct (Hpost Hok) as (_ & _ & ->).
  split; intros k Hk; rewrite lookup_foldl_delete.
  - now rewrite bool_decide_eq_true_2 by now apply list_elem_of_In.
  - rewrite bool_decide_eq_false_2; [reflexivity|]. now rewrite list_elem_of_In.
Qed.

(** X3: on a server that is up, when [truncateTables] returns, every table
    of the catalog that was there is empty, none was created or removed,
    and every other table is as it was. *)
Theorem truncateTables_empties_catalog (db : DbConnection) (st : State Server) :
  (upAt (world st) <= clock (world st))%Z ->
  fst (truncateTables db st) = Ok tt ->
  (forall k, In k allTableNames ->
     tables (world (snd (truncateTables db st))) !! k
       = (fun _ => []) <$> tables (world st) !! k) /\
  (forall k, ~ In k allTableNames ->
     tables (world (snd (truncateTables db st))) !! k = tables (world st) !! k).
Proof.
  intros Hup Hok.
  destruct (server_truncateTables_loop db st Hup) as [_ Hpost].
  destruct (Hpost Hok) as (_ & _ & ->).
  split; intros k Hk; rewrite lookup_foldl_truncated.
  - now rewrite bool_decide_eq_true_2 by now apply list_elem_of_In.
  - rewrite bool_decide_eq_false_2; [reflexivity|]. now rewrite list_elem_of_In.
Qed.

(** X4: on a PostgreSQL server that is up, [dropTables] and
    [truncateTables] return whatever tables exist, and so does a second call
    right after the first. *)
Theorem postgres_reset_twice (db : DbConnection) (st : State Server) :
  backend (world st) = Postgres ->
  (upAt (world st) <= clock (world st))%Z ->
  fst (dropTables db st) = Ok tt /\
  fst (dropTables db (snd (dropTables db st))) = Ok tt /\
  fst (truncateTables db st) = Ok tt /\
  fst (truncateTables db (snd (truncateTables db st))) = Ok tt.
Proof.
  intros Hb Hup.
  assert (Hdrop : forall st0 : State Server,
            backend (world st0) = Postgres ->
            (upAt (world st0) <= clock (world st0))%Z ->
            fst (dropTables db st0) = Ok tt).
  { intros st0 Hb0 Hup0. apply (server_dropTables_loop db st0 Hup0).
    intros t _. right. rewrite Hb0. apply absorbs_postgres. }
  assert (Htrunc : forall st0 : State Server,
            backend (world st0) = Postgres ->
            (upAt (world st0) <= clock (world st0))%Z ->
            fst (truncateTables db st0) = Ok tt).
  { intros st0 Hb0 Hup0. apply (server_truncateTables_loop db st0 Hup0).
    intros t _. right. rewrite Hb0. apply absorbs_postgres. }
  pose proof (Hdrop st Hb Hup) as Hd1.
  pose proof (Htrunc st Hb Hup) as Ht1.
  destruct (proj2 (server_dropTables_loop db st Hup) Hd1) as (Hb1 & Hup1 & _).
  destruct (proj2 (server_truncateTables_loop db st Hup) Ht1) as (Hb2 & Hup2 & _).
  repeat split; [assumption | | assumption |].
  - apply Hdrop; [congruence | assumption].
  - apply Htrunc; [congruence | assumption].
Qed.

Lemma absorbs_sqlite_schema :
  Forall (fun t => absorbs Sqlite t = false) (map fst databaseSchema).
Proof. repeat constructor. Qed.

Lemma sqlite_catalog_condition (m : gmap string (list Row)) :
  (forall t, In t allTableNames -> is_Some (m !! t) \/ absorbs Sqlite t = true) <->
  (forall t, In t (map fst databaseSchema) -> is_Some (m !! t)).
Proof.
  split.
  - intros Hall t Hin.
    destruct (Hall t) as [Hs|Ha]; [apply in_or_app; now left | assumption |].
    pose proof (proj1 (Forall_forall _ _) absorbs_sqlite_schema t) as Hf.
    rewrite list_elem_of_In in Hf. specialize (Hf Hin). congruence.
  - intros Hall t Hin. unfold allTableNames in Hin.
    apply in_app_or in Hin as [Hin|Hin]; [left; now apply Hall|].
    right. destruct Hin as [<-|[<-|[]]]; reflexivity.
Qed.

(** X5: on an SQLite database, [dropTables] returns exactly when each of
    the ten tables of the schema exists, and so does [truncateTables]; a
    missing bookkeeping table is passed over, a missing schema table is
    not. *)
Theorem sqlite_reset_needs_schema (db : DbConnection) (st : State Server) :
  backend (world st) = Sqlite ->
  (upAt (world st) <= clock (world st))%Z ->
  (fst (dropTables db st) = Ok tt <->
   forall t, In t (map fst databaseSchema) -> is_Some (tables (world st) !! t)) /\
  (fst (truncateTables db st) = Ok tt <->
   forall t, In t (map fst databaseSchema) -> is_Some (tables (world st) !! t)).
Proof.
  intros Hb Hup. split.
  - rewrite (proj1 (server_dropTables_loop db st Hup)), Hb.
    apply sqlite_catalog_condition.
  - rewrite (proj1 (server_truncateTables_loop db st Hup)), Hb.
    apply sqlite_catalog_condition.
Qed.

Lemma server_probe_uninitialised (db : DbConnection) (st : State Server) :
  (upAt (world st) <= clock (world st))%Z ->
  tables (world st) !! "knex_migrations" = None \/
  tables (world st) !! "knex_migrations" = Some [] ->
  exists check,
    fst (connectionCheck db st) = Ok check /\
    isCreated check = false /\
    check_error check = JNull /\
    check_connection check = Some db.
Proof.
  intros Hup Hkm.
  assert (Hlt : (clock (world st) <? upAt (world st))%Z = false)
    by (apply Z.ltb_ge; lia).
  rewrite connectionCheck_eq, latestMigration_eq. simpl.
  unfold server_select, statement. rewrite Hlt.
  destruct Hkm as [-> | ->]; simpl.
  - destruct (backend (world st)); simpl; eexists; repeat split.
  - eexists; repeat split.
Qed.

(** X13: on a server that is up, after [dropTables] or [truncateTables]
    has returned, the probe finds no migration: [isCreated] is false and
    [error] is null, as for a database that was never initialised. *)
Theorem reset_then_probe (db db' : DbConnection) (st : State Server) :
  (upAt (world st) <= clock (world st))%Z ->
  (fst (dropTables db st) = Ok tt ->
   exists check,
     fst (connectionCheck db' (snd (dropTables db st))) = Ok check /\
     isCreated check = false /\
     check_error check = JNull /\
     check_connection check = Some db') /\
  (fst (truncateTables db st) = Ok tt ->
   exists check,
     fst (connectionCheck db' (snd (truncateTables db st))) = Ok check /\
     isCreated check = false /\
     check_error check = JNull /\
     check_connection check = Some db').
Proof.
  intros Hup. split; intros Hok.
  - destruct (proj2 (server_dropTables_loop db st Hup) Hok) as (_ & Hup' & Ht).
    apply server_probe_uninitialised; [assumption|]. left.
    rewrite Ht, lookup_foldl_delete.
    now rewrite bool_decide_eq_true_2 by (apply list_elem_of_In; vm_compute; tauto).
  - destruct (proj2 (server_truncateTables_loop db st Hup) Hok) as (_ & Hup' & Ht).
    apply server_probe_uninitialised; [assumption|].
    rewrite Ht, lookup_foldl_truncated.
    rewrite bool_decide_eq_true_2 by (apply list_elem_of_In; vm_compute; tauto).
    destruct (tables (world st) !! "knex_migrations"); [now right | now left].
Qed.

(** ** What a reset throws *)

Section ResetErrors.
Context `{Process} {W : Type} `{Knex W}.

Lemma resetOne_throw (c : Call) (op : W -> Outcome unit * W) (st : State W)
    (e : JsValue) :
  fst (tryCatch (call c op)
         (fun error =>
            bind (lift (isNoSuchTableError error))
              (fun noSuchTable => if noSuchTable then ret tt else throw error)) st)
    = Throw e ->
  exists d w',
    op (world st) = (Failed d, w') /\
    e = errorValue d /\
    isNoSuchTableError e = Ok false.
Proof.
  unfold tryCatch, call, bind, lift, ret, throw.
  destruct (op (world st)) as [[[]|d] w'] eqn:Eop; simpl; [discriminate|].
  destruct (isNoSuchTableError (errorValue d)) as [[|]|e'] eqn:Ecls; simpl.
  - discriminate.
  - intros [= <-]. now exists d, w'.
  - rewrite isNoSuchTableError_errorValue in Ecls. discriminate.
Qed.

Lemma forOf_throw (body : string -> M W unit) (names : list string) :
  forall (st : State W) (e : JsValue),
    fst (forOf names body st) = Throw e ->
    exists t st0, In t names /\ fst (body t st0) = Throw e.
Proof.
  induction names as [|t names IH]; intros st e; [discriminate|].
  cbn [forOf]. unfold bind.
  destruct (body t st) as [[[]|e0] st1] eqn:Eb.
  - intros Hrest. destruct (IH st1 e Hrest) as (t' & st0 & Hin & Ht').
    exists t', st0. split; [now right | assumption].
  - simpl. intros [= <-]. exists t, st. rewrite Eb. split; [now left | reflexivity].
Qed.

(** X14: what [dropTables] or [truncateTables] throws is the error with
    which the engine failed a statement on a table of the catalog, as the
    driver raised it, and one the classifier does not take for a missing
    table. *)
Theorem reset_throws_driver_error (db : DbConnection) (st : State W)
    (e : JsValue) :
  (fst (dropTables db st) = Throw e ->
   exists t st0 d w',
     In t allTableNames /\
     knex_dropTable db t (world st0) = (Failed d, w') /\
     e = errorValue d /\
     isNoSuchTableError e = Ok false) /\
  (fst (truncateTables db st) = Throw e ->
   exists t st0 d w',
     In t allTableNames /\
     knex_truncate db t (world st0) = (Failed d, w') /\
     e = errorValue d /\
     isNoSuchTableError e = Ok false).
Proof.
  split; intros Hthrow.
  - apply forOf_throw in Hthrow as (t & st0 & Hin & Ht).
    apply resetOne_throw in Ht as (d & w' & Hop & He & Hcls).
    now exists t, st0, d, w'.
  - apply forOf_throw in Hthrow as (t & st0 & Hin & Ht).
    apply resetOne_throw in Ht as (d & w' & Hop & He & Hcls).
    now exists t, st0, d, w'.
Qed.

End ResetErrors.

(** ** The descriptor keeps the configuration *)

Section Descriptor.
Context `{Process}.

(** X15: the descriptor tells the client, the database name and the
    stack-trace flag of the configuration it was made from; for a client
    other than ['sqlite3'] it tells host, port, user and password as
    well. *)
Theorem makeKnexConfig_keeps_fields (c1 c2 : DatabaseConfig) :
  makeKnexConfig c1 = makeKnexConfig c2 ->
  client c1 = client c2 /\
  name c1 = name c2 /\
  asyncStackTraces c1 = asyncStackTraces c2 /\
  (client c1 <> "sqlite3" ->
   host c1 = host c2 /\ port c1 = port c2 /\
   user c1 = user c2 /\ password c1 = password c2).
Proof.
  intros Heq.
  pose proof (f_equal knex_client Heq) as Hclient.
  pose proof (f_equal knex_asyncStackTraces Heq) as Htraces.
  pose proof (f_equal connection Heq) as Hconn.
  unfold makeKnexConfig in Hclient, Htraces, Hconn. simpl in *.
  rewrite <- Hclient in Hconn.
  destruct (String.eqb (client c1) "sqlite3") eqn:Esq.
  - injection Hconn as Hpath. apply sqliteFilePath_injective in Hpath.
    repeat split; try assumption;
      apply String.eqb_eq in Esq; contradiction.
  - injection Hconn as Hhost Hport Huser Hname Hpass.
    repeat split; assumption.
Qed.

End Descriptor.

(** ** The further properties on the concrete world *)


Lemma sqliteFilePath_injective_witness :
  sqliteFilePath "dev" = sqliteFilePath "dev" /\ "dev" = "dev".
Proof.
  split; [reflexivity|].
  apply (sqliteFilePath_injective "dev" "dev"). reflexivity.
Defined.

Lemma reset_trace_witness :
  fst (dropTables 0%nat (start (freshServer Postgres))) = Ok tt /\
  exists issued skipped,
    allTableNames = issued ++ skipped /\
    calls (snd (dropTables 0%nat (start (freshServer Postgres))))
      = calls (start (freshServer Postgres)) ++ map (CallDropTable 0%nat) issued /\
    (fst (dropTables 0%nat (start (freshServer Postgres))) = Ok tt -> skipped = []) /\
    (isThrow (fst (dropTables 0%nat (start (freshServer Postgres)))) = true ->
     issued <> []).
Proof.
  split; [vm_compute; reflexivity|].
  exact (proj1 (reset_trace 0%nat (start (freshServer Postgres)))).
Defined.

Lemma waitForConnection_read_only_witness :
  waitForConnection 5 postgresConfig (start slowStart)
    = Some (fst slowStartRun, snd slowStartRun) /\
  exists new,
    calls (snd slowStartRun) = calls (start slowStart) ++ new /\
    Forall (waitCall postgresConfig) new.
Proof.
  assert (Hrun : waitForConnection 5 postgresConfig (start slowStart)
                 = Some (fst slowStartRun, snd slowStartRun))
    by (vm_compute; reflexivity).
  split; [exact Hrun|].
  exact (waitForConnection_read_only postgresConfig 5 (start slowStart)
           (fst slowStartRun) (snd slowStartRun) Hrun).
Defined.

Lemma waitForConnection_logs_witness :
  waitForConnection 32 postgresConfig (start downServer)
    = Some (fst downRun, snd downRun) /\
  isThrow (fst downRun) = true /\
  exists new,
    calls (snd downRun) = calls (start downServer) ++ new /\
    countCalls (isLog "info") new
      = (countCalls isSleep new + if isThrow (fst downRun) then 1 else 0)%nat /\
    countCalls (isLog "error") new
      = (if isThrow (fst downRun) then 1 else 0)%nat.
Proof.
  assert (Hrun : waitForConnection 32 postgresConfig (start downServer)
                 = Some (fst downRun, snd downRun))
    by (vm_compute; reflexivity).
  split; [exact Hrun|]. split; [vm_compute; reflexivity|].
  exact (waitForConnection_logs postgresConfig 32 (start downServer)
           (fst downRun) (snd downRun) Hrun).
Defined.

Lemma waitForConnection_returns_connection_witness :
  exists check,
    waitForConnection 5 postgresConfig (start slowStart)
      = Some (Ok check, snd slowStartRun) /\
    exists db st0 earlier,
      calls st0 = calls (start slowStart) ++ earlier /\
      fst (knex_connect (makeKnexConfig postgresConfig) (world st0)) = Done db /\
      check_connection check = Some db /\
      check_error check = JNull /\
      (isCreated check = true <->
       exists n, check_latestMigration check = JObj [("name", JStr n)]) /\
      world (snd slowStartRun)
        = snd (knex_select db "knex_migrations"
                 (snd (knex_connect (makeKnexConfig postgresConfig) (world st0)))) /\
      calls (snd slowStartRun)
        = calls st0 ++ [CallConnect (makeKnexConfig postgresConfig);
                        CallSelect db "knex_migrations"].
Proof.
  eexists.
  assert (Hrun : waitForConnection 5 postgresConfig (start slowStart)
                 = Some (Ok {| isCreated := true; check_error := JNull;
                               check_latestMigration :=
                                 JObj [("name", JStr "20190913171451_create.js")];
                               check_connection := Some 2%nat |},
                         snd slowStartRun))
    by (vm_compute; reflexivity).
  split; [exact Hrun|].
  exact (waitForConnection_returns_connection postgresConfig 5 (start slowStart)
           _ (snd slowStartRun) Hrun).
Defined.

Lemma waitForConnection_bounded_attempts_witness :
  waitForConnection 32 postgresConfig (start downServer)
    = Some (fst downRun, snd downRun) /\
  exists new,
    calls (snd downRun) = calls (start downServer) ++ new /\
    (countCalls isSleep new <= 31)%nat /\
    (countCalls isConnect new <= 32)%nat.
Proof.
  assert (Hrun : waitForConnection 32 postgresConfig (start downServer)
                 = Some (fst downRun, snd downRun))
    by (vm_compute; reflexivity).
  split; [exact Hrun|].
  exact (waitForConnection_bounded_attempts postgresConfig 32 (start downServer)
           (fst downRun) (snd downRun) Hrun).
Defined.

Lemma latestMigration_storage_order_witness :
  fst (latestMigration 0%nat (start migratedSqlite))
    = fst (latestMigration 0%nat (start reorderedSqlite)).
Proof.
  apply (latestMigration_storage_order 0%nat 0%nat (start migratedSqlite)
           (start reorderedSqlite)
           [ {| row_id := 2; row_name := "20200728130400_shares.js" |};
             {| row_id := 1; row_name := "20190913171451_create.js" |};
             {| row_id := 3; row_name := "20201114161249_changes.js" |} ]
           [ {| row_id := 3; row_name := "20201114161249_changes.js" |};
             {| row_id := 2; row_name := "20200728130400_shares.js" |};
             {| row_id := 1; row_name := "20190913171451_create.js" |} ]
           (tick migratedSqlite) (tick reorderedSqlite)).
  - reflexivity.
  - reflexivity.
  - eapply perm_trans; [apply perm_swap|].
    eapply perm_trans; [apply perm_skip, perm_swap|].
    eapply perm_trans; [apply perm_swap|]. 
    apply perm_skip. apply perm_swap.
  - apply (bool_decide_unpack _). vm_compute. reflexivity.
Defined.

Lemma dropTables_clears_catalog_witness :
  (upAt (world (start (freshServer Sqlite)))
     <= clock (world (start (freshServer Sqlite))))%Z /\
  fst (dropTables 0%nat (start (freshServer Sqlite))) = Ok tt /\
  tables (world (snd (dropTables 0%nat (start (freshServer Sqlite))))) !! "users"
    = None.
Proof.
  assert (Hup : (upAt (world (start (freshServer Sqlite)))
                   <= clock (world (start (freshServer Sqlite))))%Z)
    by (simpl; lia).
  assert (Hok : fst (dropTables 0%nat (start (freshServer Sqlite))) = Ok tt)
    by (vm_compute; reflexivity).
  split; [exact Hup|]. split; [exact Hok|].
  apply (proj1 (dropTables_clears_catalog 0%nat (start (freshServer Sqlite)) Hup Hok)).
  vm_compute. tauto.
Defined.

Lemma truncateTables_empties_catalog_witness :
  (upAt (world (start (freshServer Sqlite)))
     <= clock (world (start (freshServer Sqlite))))%Z /\
  fst (truncateTables 0%nat (start (freshServer Sqlite))) = Ok tt /\
  tables (world (snd (truncateTables 0%nat (start (freshServer Sqlite)))))
    !! "knex_migrations"
    = (fun _ => []) <$> tables (world (start (freshServer Sqlite))) !! "knex_migrations".
Proof.
  assert (Hup : (upAt (world (start (freshServer Sqlite)))
                   <= clock (world (start (freshServer Sqlite))))%Z)
    by (simpl; lia).
  assert (Hok : fst (truncateTables 0%nat (start (freshServer Sqlite))) = Ok tt)
    by (vm_compute; reflexivity).
  split; [exact Hup|]. split; [exact Hok|].
  apply (proj1 (truncateTables_empties_catalog 0%nat (start (freshServer Sqlite))
                  Hup Hok)).
  vm_compute. tauto.
Defined.

Lemma postgres_reset_twice_witness :
  fst (dropTables 0%nat (start (freshServer Postgres))) = Ok tt /\
  fst (dropTables 0%nat (snd (dropTables 0%nat (start (freshServer Postgres)))))
    = Ok tt /\
  fst (truncateTables 0%nat (start (freshServer Postgres))) = Ok tt /\
  fst (truncateTables 0%nat
         (snd (truncateTables 0%nat (start (freshServer Postgres))))) = Ok tt.
Proof.
  apply (postgres_reset_twice 0%nat (start (freshServer Postgres))).
  - reflexivity.
  - simpl. lia.
Defined.

Lemma sqlite_reset_needs_schema_witness :
  fst (dropTables 0%nat (start (freshServer Sqlite))) = Ok tt.
Proof.
  apply (proj1 (sqlite_reset_needs_schema 0%nat (start (freshServer Sqlite))
                  eq_refl ltac:(simpl; lia))).
  intros t Hin. apply (bool_decide_unpack _).
  repeat (destruct Hin as [<-|Hin]; [vm_compute; reflexivity|]).
  destruct Hin.
Defined.

Lemma reset_then_probe_witness :
  fst (dropTables 0%nat (start (freshServer Sqlite))) = Ok tt /\
  exists check,
    fst (connectionCheck 1%nat (snd (dropTables 0%nat (start (freshServer Sqlite)))))
      = Ok check /\
    isCreated check = false /\
    check_error check = JNull /\
    check_connection check = Some 1%nat.
Proof.
  assert (Hok : fst (dropTables 0%nat (start (freshServer Sqlite))) = Ok tt)
    by (vm_compute; reflexivity).
  split; [exact Hok|].
  exact (proj1 (reset_then_probe 0%nat 1%nat (start (freshServer Sqlite))
                  ltac:(simpl; lia)) Hok).
Defined.

Lemma reset_throws_driver_error_witness :
  fst (dropTables 0%nat (start emptySqlite))
    = Throw (errorValue (noSuchTable Sqlite "users")) /\
  exists t st0 d w',
    In t allTableNames /\
    knex_dropTable 0%nat t (world st0) = (Failed d, w') /\
    errorValue (noSuchTable Sqlite "users") = errorValue d /\
    isNoSuchTableError (errorValue (noSuchTable Sqlite "users")) = Ok false.
Proof.
  assert (Hthrow : fst (dropTables 0%nat (start emptySqlite))
                   = Throw (errorValue (noSuchTable Sqlite "users")))
    by (vm_compute; reflexivity).
  split; [exact Hthrow|].
  exact (proj1 (reset_throws_driver_error 0%nat (start emptySqlite) _) Hthrow).
Defined.

Lemma makeKnexConfig_keeps_fields_witness :
  makeKnexConfig postgresConfig = makeKnexConfig postgresConfigWithPath /\
  client postgresConfig <> "sqlite3" /\
  postgresConfig <> postgresConfigWithPath /\
  (host postgresConfig = host postgresConfigWithPath /\
   port postgresConfig = port postgresConfigWithPath /\
   user postgresConfig = user postgresConfigWithPath /\
   password postgresConfig = password postgresConfigWithPath) /\
  makeKnexConfig sqliteConfig = makeKnexConfig sqliteConfigWithHost /\
  name sqliteConfig = name sqliteConfigWithHost.
Proof.
  assert (Heq : makeKnexConfig postgresConfig = makeKnexConfig postgresConfigWithPath)
    by reflexivity.
  assert (Hne : client postgresConfig <> "sqlite3") by discriminate.
  assert (Hsq : makeKnexConfig sqliteConfig = makeKnexConfig sqliteConfigWithHost)
    by reflexivity.
  split; [exact Heq|]. split; [exact Hne|]. split; [discriminate|].
  split.
  - exact (proj2 (proj2 (proj2 (makeKnexConfig_keeps_fields postgresConfig
                                  postgresConfigWithPath Heq))) Hne).
  - split; [exact Hsq|].
    exact (proj1 (proj2 (makeKnexConfig_keeps_fields sqliteConfig
                           sqliteConfigWithHost Hsq))).
Defined.
